(** * xgb_train.py: a shallow embedding of the XGBoost training script

    The script is a straight-line pipeline: load a table and split it,
    obtain a hyperparameter mapping (a fixed preset or one random draw),
    train, save the evaluation record, and optionally write diagnostics.

    Modelling choices.
    - Python dicts are [gmap string _]; none of the properties below depends
      on iteration order.  The hyperparameter dict is an object on a heap,
      because [train_hyp_config] writes into the dict it is handed and
      [diagnostics] later reads the same object through the module-level
      name [hp].
    - Python floats are the rationals they denote, plus the three special
      values; the tests the script makes on them ([int(v) == v], [> 0.5]) are
      exact on doubles, so nothing is lost for the properties stated here.
    - Library calls (pandas, scikit-learn, xgboost, hyperopt, matplotlib)
      are not part of the script.  What they return is taken from a record
      of externals ([Libs]) or from the random source ([rng]); what the
      script does with the results is modelled in full.
    - Files written and training calls made are recorded in a trace. *)

From Stdlib Require Import QArith Qround.
From stdpp Require Import gmap strings list fin_maps pretty.

Local Open Scope Z_scope.

(** ** Python values *)

Inductive pyfloat :=
| Fin (q : Q)
| PInf
| NInf
| NaN.

Inductive pyval :=
| VStr (s : string)
| VInt (z : Z)
| VFloat (f : pyfloat).

#[global] Instance Q_eq_dec : EqDecision Q.
Proof. solve_decision. Defined.
#[global] Instance pyfloat_eq_dec : EqDecision pyfloat.
Proof. solve_decision. Defined.
#[global] Instance pyval_eq_dec : EqDecision pyval.
Proof. solve_decision. Defined.

Abbreviation pydict := (gmap string pyval).

(** ** Exceptions *)

Inductive exn :=
| KeyError (key : string)
| IndexError
| ValueError
| TypeError
| OverflowError
| AttributeError
| IOError
| LibraryError.

Inductive result (A : Type) :=
| Ok (a : A)
| Raise (e : exn).
Arguments Ok {A} a.
Arguments Raise {A} e.

Definition rbind {A B} (r : result A) (k : A → result B) : result B :=
  match r with
  | Ok a => k a
  | Raise e => Raise e
  end.

Definition of_option {A} (e : exn) (o : option A) : result A :=
  match o with
  | Some a => Ok a
  | None => Raise e
  end.

#[global] Instance result_ret : MRet result := @Ok.
#[global] Instance result_bind : MBind result := λ A B k r, rbind r k.

(** ** The world: dict objects and what the run has done so far *)

Definition loc := nat.

Inductive file_kind :=
| MatrixBuffer
| HdfTable
| ModelFile
| JsonFile
| PdfImage
| NpyArray.

Inductive event :=
| Printed (format : string) (values : list pyval)
| PrintedAttributes (attrs : gmap string string)
| FileWritten (kind : file_kind) (path : string)
| Training (params : list (string * pyval)) (num_boost_round : Z)
           (early_stopping_rounds : Z).

#[global] Instance file_kind_eq_dec : EqDecision file_kind.
Proof. solve_decision. Defined.
#[global] Instance event_eq_dec : EqDecision event.
Proof. solve_decision. Defined.

Record world := {
  heap : gmap loc pydict;
  trace : list event
}.

(** A computation may change the world and either returns or raises; what
    it did before raising stays done. *)
Definition M (A : Type) : Type := world → result A * world.

#[global] Instance M_ret : MRet M := λ A a w, (Ok a, w).
#[global] Instance M_bind : MBind M := λ A B k m w,
  match m w with
  | (Ok a, w') => k a w'
  | (Raise e, w') => (Raise e, w')
  end.

Definition lift {A} (r : result A) : M A := λ w, (r, w).

Definition emit (e : event) : M unit := λ w,
  (Ok (), {| heap := heap w; trace := trace w ++ [e] |}).

(** A dict display or comprehension evaluated to a new object. *)
Definition new_dict (d : pydict) : M loc := λ w,
  let l := fresh (dom (heap w)) in
  (Ok l, {| heap := <[l := d]> (heap w); trace := trace w |}).

(** [d[k] = v] *)
Definition dict_setitem (l : loc) (k : string) (v : pyval) : M unit := λ w,
  match heap w !! l with
  | Some d => (Ok (), {| heap := <[l := <[k := v]> d]> (heap w); trace := trace w |})
  | None => (Raise TypeError, w)
  end.

(** [d[k]] *)
Definition dict_getitem (l : loc) (k : string) : M pyval := λ w,
  match heap w !! l with
  | Some d => (of_option (KeyError k) (d !! k), w)
  | None => (Raise TypeError, w)
  end.

(** [list(d.items())] *)
Definition dict_items (l : loc) : M (list (string * pyval)) := λ w,
  match heap w !! l with
  | Some d => (Ok (map_to_list d), w)
  | None => (Raise TypeError, w)
  end.

(** ** Floats: the operations the script uses *)

(** [int(f)]: truncation toward zero; raises on the special values. *)
Definition py_int_of_float (f : pyfloat) : result Z :=
  match f with
  | Fin q => Ok (Z.quot (Qnum q) (Z.pos (Qden q)))
  | NaN => Raise ValueError
  | PInf | NInf => Raise OverflowError
  end.

(** [i == f] for an integer [i] and a float [f]. *)
Definition py_int_eq_float (i : Z) (f : pyfloat) : bool :=
  match f with
  | Fin q => Qeq_bool (inject_Z i) q
  | _ => false
  end.

(** [np.round]: to the nearest integer, ties to the even one. *)
Definition np_round (x : Q) : Z :=
  let f := Qfloor x in
  match (x - inject_Z f ?= 1 # 2)%Q with
  | Lt => f
  | Gt => f + 1
  | Eq => if Z.even f then f else f + 1
  end.

(** ** hyperopt: priors, the random source, and sampling *)

Inductive prior :=
| Lit (v : pyval)
| hp_uniform (label : string) (low high : Q)
| hp_quniform (label : string) (low high q : Q)
| hp_choice (label : string) (options : list pyval).

(** One draw per labelled node: [uniform_draw label low high] is what
    [rng.uniform(low, high)] returned for that node, [randint_draw label]
    the raw integer an index is taken from. *)
Record rng := {
  uniform_draw : string → Q → Q → Q;
  randint_draw : string → nat
}.

(** The library's contract for a uniform draw. *)
Definition rng_ok (g : rng) : Prop :=
  ∀ label low high, (low <= high)%Q →
    (low <= uniform_draw g label low high <= high)%Q.

Definition randint (g : rng) (label : string) (upper : nat) : nat :=
  (randint_draw g label mod upper)%nat.

(** [hp.choice(label, options)], for options of any kind. *)
Definition choice {A} (g : rng) (label : string) (options : list A) : option A :=
  options !! randint g label (length options).

Definition sample_prior (g : rng) (p : prior) : option pyval :=
  match p with
  | Lit v => Some v
  | hp_uniform label low high =>
      Some (VFloat (Fin (uniform_draw g label low high)))
  | hp_quniform label low high q =>
      Some (VFloat (Fin (inject_Z (np_round (uniform_draw g label low high / q)) * q)))
  | hp_choice label options => choice g label options
  end.

(** Sampling a dict of priors: every entry is evaluated; the result has the
    same keys. *)
Definition sample_dict (g : rng) (space : gmap string prior) : result pydict :=
  if decide (map_Forall (λ _ p, is_Some (sample_prior g p)) space)
  then Ok (omap (sample_prior g) space)
  else Raise LibraryError.

(** ** The hyperparameter provider *)

Definition xgb_hyp : gmap string prior * gmap string prior :=
  let gbtree_hyp : gmap string prior :=
    {[ "booster" := Lit (VStr "gbtree");
       "eta" := hp_uniform "lr" (1 # 100) (17 # 100);
       "gamma" := hp_uniform "mlr" (5 # 100) (25 # 10);
       "min_child_weight" := hp_uniform "mcw" 0 2;
       "max_depth" := hp_quniform "md" 3 9 1;
       "subsample" := hp_uniform "ss" (7 # 10) 1;
       "colsample_bytree" := hp_uniform "cs" (7 # 10) 1;
       "objective" := Lit (VStr "binary:logistic");
       "silent" := Lit (VInt 1) ]} in
  let dart_hyp : gmap string prior :=
    {[ "booster" := Lit (VStr "dart");
       "sample_type" := hp_choice "dart_st" [VStr "uniform"; VStr "weighted"];
       "normalize_type" := hp_choice "dart_nt" [VStr "tree"; VStr "forest"];
       "rate_drop" := hp_uniform "dropout" 0 (3 # 10);
       "skip_drop" := hp_uniform "skip" 0 (25 # 100) ]} in
  (gbtree_hyp, dart_hyp).

Definition hp_default_config (deep : bool) : M pydict :=
  if deep then
    emit (Printed "Using deep hp config" []);;
    mret ({[ "eta" := VFloat (Fin (1 # 10)); "seed" := VInt 0;
             "subsample" := VFloat (Fin (75 # 100));
             "colsample_bytree" := VFloat (Fin (85 # 100));
             "gamma" := VFloat (Fin (25 # 10));
             "objective" := VStr "binary:logistic"; "max_depth" := VInt 8;
             "min_child_weight" := VFloat (Fin (4 # 10));
             "silent" := VInt 1 ]} : pydict)
  else
    mret ({[ "eta" := VFloat (Fin (1 # 10)); "seed" := VInt 0;
             "subsample" := VFloat (Fin (8 # 10));
             "colsample_bytree" := VFloat (Fin (9 # 10));
             "gamma" := VFloat (Fin (16 # 10));
             "objective" := VStr "binary:logistic"; "max_depth" := VInt 6;
             "min_child_weight" := VInt 1; "silent" := VInt 1 ]} : pydict).

(** [{**a, **b}]: the entries of [b] win. *)
Definition dict_merge {V} (a b : gmap string V) : gmap string V := b ∪ a.

(** The space [get_hyp_config] samples from: index 0 is the tree booster,
    index 1 the dropout booster. *)
Definition hyp_space : list (gmap string prior) :=
  let '(gbtree_hyp, dart_hyp) := xgb_hyp in
  [gbtree_hyp; dict_merge gbtree_hyp dart_hyp].

(** [hyperopt.pyll.stochastic.sample(hp.choice('booster', [...]))] *)
Definition sample_space (g : rng) : result pydict :=
  (space ← of_option LibraryError (choice g "booster" hyp_space);
   sample_dict g space).

(** One step of the loop
      [for k, v in params.items():
           if type(v) == float and int(v) == v: params[k] = int(v)]. *)
Definition coerce_step (k : string) (v : pyval) (acc : result pydict)
  : result pydict :=
  (params ← acc;
   match v with
   | VFloat f =>
       i ← py_int_of_float f;
       if py_int_eq_float i f then
         i' ← py_int_of_float f; Ok (<[k := VInt i']> params)
       else Ok params
   | _ => Ok params
   end).

Definition coerce_whole_floats (params : pydict) : result pydict :=
  map_fold coerce_step (Ok params) params.

Section Identity.
(** [v is 'default']: whether the runtime finds [v] to be the very object
    the literal denotes.  Whether two equal strings are one object is up
    to the interpreter; an object identical to the literal is in any case
    a string equal to it. *)
Variable is_default_literal : pyval → bool.

Definition drop_default (params : pydict) : pydict :=
  filter (λ kv : string * pyval, is_default_literal kv.2 = false) params.

Definition get_hyp_config (g : rng) : result pydict :=
  (params ← sample_space g;
   params ← coerce_whole_floats params;
   Ok (drop_default params)).
End Identity.

(** What the interpreter may answer for [v is 'default']. *)
Definition identity_sound (is_default_literal : pyval → bool) : Prop :=
  ∀ v, is_default_literal v = true → v = VStr "default".


(** ** Tables *)

(** A table as pandas holds it: a number of rows and, left to right, the
    header and the values of each column. *)
Record dataframe := {
  df_len : nat;
  df_columns : list (string * list pyfloat)
}.

Definition df_names (df : dataframe) : list string := (df_columns df).*1.

(** [l[:-1]] *)
Definition all_but_last {A} (l : list A) : list A := take (length l - 1) l.

(** The columns carrying a given header; headers need not be distinct. *)
Definition columns_named (name : string) (df : dataframe)
  : list (string * list pyfloat) :=
  filter (λ c, c.1 = name) (df_columns df).

(** [df[names]]: every name selects all the columns that carry it. *)
Definition df_getitem_list (names : list string) (df : dataframe)
  : result dataframe :=
  cols ← mapM (λ name, match columns_named name df with
                       | [] => Raise (KeyError name)
                       | cs => Ok cs
                       end) names;
  Ok {| df_len := df_len df; df_columns := concat cols |}.

(** [df[name]] is a series when one column carries the name and a frame
    when several do. *)
Inductive labels :=
| Series (values : list pyfloat)
| Frame (columns : list (list pyfloat)).

Definition df_getitem (name : string) (df : dataframe) : result labels :=
  match columns_named name df with
  | [] => Raise (KeyError name)
  | [c] => Ok (Series c.2)
  | cs => Ok (Frame cs.*2)
  end.

(** Rows at the given positions, in that order. *)
Definition take_rows (ind : list nat) (col : list pyfloat) : result (list pyfloat) :=
  of_option IndexError (mapM (λ i, col !! i) ind).

Definition df_take (ind : list nat) (df : dataframe) : result dataframe :=
  cols ← mapM (λ c : string * list pyfloat,
                 vs ← take_rows ind c.2; Ok (c.1, vs)) (df_columns df);
  Ok {| df_len := length ind; df_columns := cols |}.

Definition labels_take (ind : list nat) (y : labels) : result labels :=
  match y with
  | Series vs => vs' ← take_rows ind vs; Ok (Series vs')
  | Frame cs => cs' ← mapM (take_rows ind) cs; Ok (Frame cs')
  end.

(** ** Training matrices and boosters *)

Record dmatrix := {
  dm_num_row : nat;
  dm_data : list (list pyfloat);
  dm_label : list pyfloat;
  dm_feature_names : list string
}.

Record booster := {
  attributes : gmap string string;
  predict : dmatrix → list pyfloat;
  get_fscore : list (string * Z)
}.

(** [bst.attr(key)]: [None] when the attribute is not set. *)
Definition attr (bst : booster) (key : string) : option string :=
  attributes bst !! key.

(** ** What the libraries answer *)

Record Libs := {
  (** [pd.read_hdf(fname, 'df')]; [None] when the file cannot be read *)
  read_hdf : string → option dataframe;
  (** [RandomState(seed).permutation(n)] *)
  permutation : Z → nat → list nat;
  (** [ceil(test_size * n_samples)], as computed on doubles *)
  num_test : Q → nat → nat;
  (** whether [xgb.DMatrix] accepts data, label and feature names *)
  dmatrix_accepts : list (list pyfloat) → list pyfloat → list string → bool;
  (** [xgb.train(params, dtrain, evals, num_boost_round,
      early_stopping_rounds)]; [None] when it raises *)
  xgb_train : list (string * pyval) → dmatrix → list (dmatrix * string) →
              Z → Z → option booster;
  (** [float(s)] and [int(s)] on strings; [None] when they raise *)
  float_of_string : string → option pyfloat;
  int_of_string : string → option Z;
  (** whether [roc_curve] accepts the labels and scores *)
  roc_curve_accepts : list pyfloat → list pyfloat → bool;
  (** whether pandas can draw the bar chart of these importances *)
  barh_accepts : list (string * Z) → bool;
  (** [time.strftime("%b_%d_%H:%M")] when the results are saved *)
  timestamp : string
}.

(** What the script relies on from [RandomState.permutation]. *)
Definition permutation_ok (L : Libs) : Prop :=
  ∀ seed n, permutation L seed n ≡ₚ seq 0 n.

(** ** Paths and strings *)

Definition starts_with (p s : string) : bool := String.prefix p s.
Definition ends_with (p s : string) : bool :=
  String.prefix (String.rev p) (String.rev s).

(** [os.path.join(a, *ps)] on POSIX *)
Definition path_join (a : string) (ps : list string) : string :=
  foldl (λ path b,
           if starts_with "/" b then b
           else if bool_decide (path = "") || ends_with "/" path then path +:+ b
           else path +:+ "/" +:+ b) a ps.

(** The file [np.save(file, arr)] writes. *)
Definition np_save_path (file : string) : string :=
  if ends_with ".npy" file then file else file +:+ ".npy".

#[global] Arguments path_join : simpl never.
#[global] Arguments np_save_path : simpl never.

(** The tab character, code 9 *)
Definition tab : Ascii.ascii := Ascii.ascii_of_nat 9.

(** [s.split(sep)] for a one-character separator *)
Fixpoint split (sep : Ascii.ascii) (s : string) : list string :=
  match s with
  | EmptyString => [EmptyString]
  | String c s' =>
      if decide (c = sep) then EmptyString :: split sep s'
      else match split sep s' with
           | f :: fs => String c f :: fs
           | [] => [String c EmptyString]
           end
  end.

(** [l[i]], with Python's negative indices *)
Definition py_index {A} (l : list A) (i : Z) : result A :=
  let n := Z.of_nat (length l) in
  if decide (0 ≤ i < n) then of_option IndexError (l !! Z.to_nat i)
  else if decide (- n ≤ i < 0) then of_option IndexError (l !! Z.to_nat (n + i))
  else Raise IndexError.

(** ** Arrays *)

(** [np.greater(x, t)] *)
Definition np_greater (x : pyfloat) (t : Q) : bool :=
  match x with
  | Fin q => negb (Qle_bool q t)
  | PInf => true
  | NInf | NaN => false
  end.

(** [b == y] for a boolean and a number: the boolean counts as 0 or 1. *)
Definition bool_eq_float (b : bool) (y : pyfloat) : bool :=
  match y with
  | Fin q => Qeq_bool (if b then 1 else 0) q
  | _ => false
  end.

(** [np.equal] on two one-dimensional arrays, with broadcasting *)
Definition np_equal (xs : list bool) (ys : list pyfloat) : result (list bool) :=
  if decide (length xs = length ys) then Ok (zip_with bool_eq_float xs ys)
  else match xs, ys with
       | [x], _ => Ok (bool_eq_float x <$> ys)
       | _, [y] => Ok ((λ x, bool_eq_float x y) <$> xs)
       | _, _ => Raise ValueError
       end.

Definition count_true (bs : list bool) : nat := length (filter (λ b, b = true) bs).

(** [a.mean()] of a boolean array; NaN on the empty array *)
Definition np_mean (bs : list bool) : pyfloat :=
  match bs with
  | [] => NaN
  | _ => Fin (Z.of_nat (count_true bs) # Pos.of_nat (length bs))
  end.

(** ** Command line *)

Record Args := {
  data_file : string;
  channel : string;
  mode : string;
  num_boost_rounds : option Z;
  randomhp : bool;
  deeptrees : bool;
  diagnostics_flag : bool
}.

(** [if x:] for an optional integer: neither [None] nor 0 *)
Definition truthy (x : option Z) : bool :=
  match x with
  | Some n => negb (n =? 0)
  | None => false
  end.

Section Script.
Context (L : Libs).

(** ** Data loader *)

(** [sklearn.model_selection.train_test_split(X, y, test_size,
    random_state)]: the first [n_test] entries of the seeded permutation
    are the test rows, the remaining ones the training rows. *)
Definition split_indices (n : nat) (test_size : Q) (random_state : Z)
  : list nat * list nat :=
  let n_test := num_test L test_size n in
  let n_train := (n - n_test)%nat in
  let p := permutation L random_state n in
  (take n_train (drop n_test p), take n_test p).

Definition train_test_split (X : dataframe) (y : labels) (test_size : Q)
    (random_state : Z) : result (dataframe * dataframe * labels * labels) :=
  let n := df_len X in
  if decide (n < num_test L test_size n)%nat then Raise ValueError
  else
    let '(ind_train, ind_test) := split_indices n test_size random_state in
    X_train ← df_take ind_train X;
    X_test ← df_take ind_test X;
    y_train ← labels_take ind_train y;
    y_test ← labels_take ind_test y;
    Ok (X_train, X_test, y_train, y_test).

(** [xgb.DMatrix(data, label, feature_names)] for a series as label *)
Definition DMatrix (data : dataframe) (label : list pyfloat)
    (feature_names : list string) : result dmatrix :=
  if dmatrix_accepts L (df_columns data).*2 label feature_names
  then Ok {| dm_num_row := df_len data;
             dm_data := (df_columns data).*2;
             dm_label := label;
             dm_feature_names := feature_names |}
  else Raise ValueError.

Definition seed : Z := 24601.

(** When two columns are named 'labels', [df['labels']] is a frame; the
    feature names are then repeated or fewer than the data columns, and
    the matrix constructor raises. *)
Definition load_data (fname mode channel : string) (test_size : Q)
  : M ((dmatrix * dmatrix) * list pyfloat) :=
  df ← lift (of_option IOError (read_hdf L fname));
  X ← lift (df_getitem_list (all_but_last (df_names df)) df);
  y ← lift (df_getitem "labels" df);
  parts ← lift (train_test_split X y test_size seed);
  match parts with
  | (df_X_train, df_X_test, Series df_y_train, Series df_y_test) =>
      dTrain ← lift (DMatrix df_X_train df_y_train (all_but_last (df_names df)));
      dTest ← lift (DMatrix df_X_test df_y_test (all_but_last (df_names df)));
      emit (FileWritten MatrixBuffer
              (path_join "dmatrices"
                 [channel; "dTrain" +:+ mode +:+ channel +:+ ".buffer"]));;
      emit (FileWritten MatrixBuffer
              (path_join "dmatrices"
                 [channel; "dTest" +:+ mode +:+ channel +:+ ".buffer"]));;
      emit (FileWritten HdfTable
              (path_join "test" [channel; "dTest" +:+ mode +:+ channel +:+ ".h5"]));;
      mret ((dTrain, dTest), df_y_test)
  | _ => lift (Raise ValueError)
  end.

Definition default_test_size : Q := 5 # 100.

(** ** Trainer *)

(** The module-level [args] is passed along explicitly. *)
Context (args : Args).

Definition train_hyp_config (data : dmatrix * dmatrix) (hyp_params : loc)
    (num_boost_rounds : Z) : M (booster * pydict) :=
  dict_setitem hyp_params "eval_metric" (VStr "error@0.5");;
  items ← dict_items hyp_params;
  let pList := items ++ [("eval_metric", VStr "auc")] in
  let nTrees := num_boost_rounds in
  let '(dTrain, dTest) := data in
  let evalList := [(dTrain, "train"); (dTest, "eval")] in
  emit (Printed "Starting model training\n" []);;
  emit (Training pList nTrees 256);;
  bst ← lift (of_option LibraryError (xgb_train L pList dTrain evalList nTrees 256));
  emit (Printed "Training ended. Elapsed time: (%.3f s)." []);;
  emit (PrintedAttributes (attributes bst));;
  evalDict ← lift (
    best_score ← of_option TypeError (attr bst "best_score");
    auc ← of_option ValueError (float_of_string L best_score);
    best_msg ← of_option AttributeError (attr bst "best_msg");
    error ← py_index (split tab best_msg) (-2);
    best_iteration ← of_option TypeError (attr bst "best_iteration");
    iteration ← of_option ValueError (int_of_string L best_iteration);
    Ok ({[ "auc" := VFloat auc; "error@0.5" := VStr error;
           "best_iteration" := VInt iteration ]} : pydict));
  let model_output :=
    path_join "models" [channel args; mode args +:+ pretty nTrees +:+ ".model"] in
  emit (FileWritten ModelFile model_output);;
  mret (bst, evalDict).

Definition save_results (results : pydict) : M unit :=
  let output := path_join "models" [channel args; mode args +:+ timestamp L +:+ ".json"] in
  emit (FileWritten JsonFile output);;
  emit (Printed "Boosting complete. Model saved to {}" [VStr output]).

(** ** Diagnostics *)

Definition plot_importances (bst : booster) : M unit :=
  let importances := get_fscore bst in
  (if barh_accepts L importances then mret () else lift (Raise TypeError));;
  emit (FileWritten PdfImage
          (path_join "graphs" [channel args +:+ mode args +:+ "xgb_importances.pdf"])).

Definition plot_ROC_curve (y_true y_pred : list pyfloat) (meta : list pyval)
  : M unit :=
  (if roc_curve_accepts L y_true y_pred then mret () else lift (Raise ValueError));;
  emit (FileWritten PdfImage
          (path_join "graphs" [channel args +:+ mode args +:+ "ROC.pdf"])).

(** [hp] is the module-level name, which the main program has bound to the
    hyperparameter dict by the time diagnostics run. *)
Definition diagnostics (hp : loc) (dataDMatrix : dmatrix * dmatrix)
    (df_y_test : list pyfloat) (bst : booster) : M unit :=
  let dTest := dataDMatrix.2 in
  let xgb_pred := predict bst dTest in
  let y_pred := (λ p, np_greater p (1 # 2)) <$> xgb_pred in
  let y_true := df_y_test in
  hits ← lift (np_equal y_pred y_true);
  let test_accuracy := np_mean hits in
  emit (Printed "Test accuracy: {}" [VFloat test_accuracy]);;
  eta ← dict_getitem hp "eta";
  max_depth ← dict_getitem hp "max_depth";
  plot_ROC_curve df_y_test xgb_pred
    [VStr (channel args); VStr (mode args); eta; max_depth];;
  plot_importances bst;;
  emit (Printed "Diagnostic graphs saved to graphs/" []);;
  emit (FileWritten NpyArray
          (np_save_path (path_join "test"
             [channel args; "yPred_" +:+ mode args +:+ "_" +:+ channel args]))).

(** ** Main program *)

Definition boost_rounds : Z :=
  let given := num_boost_rounds args in
  let num_boost_rounds := 512 in
  if truthy given then default num_boost_rounds given else num_boost_rounds.

Section Main.
(** The interpreter's answer to [v is 'default'] and the process-wide
    random state. *)
Context (is_default_literal : pyval → bool) (g : rng).

Definition main : M unit :=
  emit (Printed "Loading dataset from: %s with test size 0.05"
          [VStr (data_file args)]);;
  '(dataDMatrix, df_y_test) ←
    load_data (data_file args) (mode args) (channel args) default_test_size;
  hp ← (if randomhp args then
          emit (Printed "Using random hp config" []);;
          d ← lift (get_hyp_config is_default_literal g);
          new_dict d
        else
          emit (Printed "Using default hp config" []);;
          d ← hp_default_config (deeptrees args);
          new_dict d);
  let num_boost_rounds := boost_rounds in
  emit (Printed "Boosting for {} iterations" [VInt num_boost_rounds]);;
  '(bst, results) ← train_hyp_config dataDMatrix hp num_boost_rounds;
  save_results results;;
  if diagnostics_flag args then diagnostics hp dataDMatrix df_y_test bst
  else mret ().
End Main.
End Script.
(** ** Vocabulary for the properties of the provider *)

Definition trunc (q : Q) : Z := Z.quot (Qnum q) (Z.pos (Qden q)).

(** A float denotes a whole number when it equals some integer. *)
Definition whole (q : Q) : Prop := ∃ z : Z, (q == inject_Z z)%Q.

(** What the coercion loop does to one value. *)
Definition coerce_value (v : pyval) : pyval :=
  match v with
  | VFloat (Fin q) =>
      if py_int_eq_float (trunc q) (Fin q) then VInt (trunc q) else v
  | _ => v
  end.

Definition finite_value (v : pyval) : bool :=
  match v with
  | VFloat (Fin _) => true
  | VFloat _ => false
  | _ => true
  end.

Definition plain_value (v : pyval) : bool :=
  finite_value v && bool_decide (v ≠ VStr "default").

(** A prior all of whose outcomes are finite and different from the
    sentinel string, and which has at least one outcome. *)
Definition prior_ok (p : prior) : bool :=
  match p with
  | Lit v => plain_value v
  | hp_choice _ options =>
      bool_decide (options ≠ []) && forallb plain_value options
  | _ => true
  end.

Definition gbtree_space : gmap string prior := fst xgb_hyp.
Definition dart_space : gmap string prior := dict_merge (fst xgb_hyp) (snd xgb_hyp).

#[global] Arguments gbtree_space : simpl never.
#[global] Arguments dart_space : simpl never.

(** Whether the draw at the top-level [hp.choice('booster', ...)] picked the
    dropout branch (index 1). *)
Definition dart_sampled (g : rng) : bool := bool_decide (randint g "booster" 2 = 1%nat).

Definition sampled_space (g : rng) : gmap string prior :=
  if dart_sampled g then dart_space else gbtree_space.

(** The draw before post-processing. *)
Definition raw_sample (g : rng) : pydict := omap (sample_prior g) (sampled_space g).

(** The keys every tree-boosting configuration has, and the keys only the
    dropout booster has. *)
Definition common_keys : list string :=
  ["booster"; "eta"; "gamma"; "min_child_weight"; "max_depth"; "subsample";
   "colsample_bytree"; "objective"; "silent"].

Definition dart_keys : list string :=
  ["sample_type"; "normalize_type"; "rate_drop"; "skip_drop"].

(** ** Sample inputs *)

(** CPython interns a literal that looks like an identifier, so there
    [v is 'default'] holds exactly for the strings equal to it. *)
Definition interned_identity (v : pyval) : bool :=
  bool_decide (v = VStr "default").

(** A random source whose uniform draws hit the upper end and which picks
    the dropout branch. *)
Definition upper_rng : rng :=
  {| uniform_draw := λ _ _ high, high; randint_draw := λ _, 1%nat |}.

(** A random source whose uniform draws are the midpoints and which picks
    the tree branch. *)
Definition midpoint_rng : rng :=
  {| uniform_draw := λ _ low high, ((low + high) / 2)%Q;
     randint_draw := λ _, 0%nat |}.

(** A table of four rows in the documented layout: two features, then the
    labels. *)
Definition demo_table : dataframe :=
  {| df_len := 4;
     df_columns :=
       [("x1", [Fin (1 # 10); Fin (9 # 10); Fin (2 # 10); Fin (8 # 10)]);
        ("x2", [Fin 5; Fin 6; Fin 7; Fin 8]);
        ("labels", [Fin 0; Fin 1; Fin 1; Fin 1])] |}.

(** The same rows with the column named 'labels' put first. *)
Definition labels_first_table : dataframe :=
  {| df_len := 4;
     df_columns :=
       [("labels", [Fin 0; Fin 1; Fin 1; Fin 1]);
        ("x1", [Fin (1 # 10); Fin (9 # 10); Fin (2 # 10); Fin (8 # 10)]);
        ("x2", [Fin 5; Fin 6; Fin 7; Fin 8])] |}.

Definition demo_best_msg : string :=
  "[9]" +:+ String tab "train-error@0.5:0.1" +:+ String tab "train-auc:0.9"
  +:+ String tab "eval-error@0.5:0.12" +:+ String tab "eval-auc:0.88".

(** A booster that scores a row by its first feature. *)
Definition demo_booster : booster :=
  {| attributes := {[ "best_score" := "0.88"; "best_msg" := demo_best_msg;
                      "best_iteration" := "9" ]};
     predict := λ dm, default [] (dm_data dm !! 0%nat);
     get_fscore := [("x1", 3)] |}.

(** Libraries that read [table] from the file "data.h5", shuffle by
    reversing, and train to [demo_booster]. *)
Definition demo_libs (table : dataframe) : Libs :=
  {| read_hdf := λ fname, if decide (fname = "data.h5") then Some table else None;
     permutation := λ _ n, reverse (seq 0 n);
     num_test := λ test_size n, Z.to_nat (Qceiling (test_size * inject_Z (Z.of_nat n)));
     dmatrix_accepts := λ data _ names,
       bool_decide (NoDup names) && bool_decide (length names = length data);
     xgb_train := λ _ _ _ _ _, Some demo_booster;
     float_of_string := λ s, if decide (s = "0.88") then Some (Fin (88 # 100)) else None;
     int_of_string := λ s, if decide (s = "9") then Some 9 else None;
     roc_curve_accepts := λ _ _, true;
     barh_accepts := λ importances, bool_decide (importances ≠ []);
     timestamp := "Nov_03_12:00" |}.

Definition demo_args (n : option Z) (random diag : bool) : Args :=
  {| data_file := "data.h5"; channel := "kstar"; mode := "continuum";
     num_boost_rounds := n; randomhp := random; deeptrees := false;
     diagnostics_flag := diag |}.

Definition empty_world : world := {| heap := ∅; trace := [] |}.

(** ** Vocabulary for the properties of the effectful part *)

(** A computation that leaves every dict object as it was. *)
Definition keeps_heap {A} (m : M A) : Prop :=
  ∀ w r w', m w = (r, w') → heap w' = heap w.

(** A computation that only appends to the trace, and only events
    satisfying [P]. *)
Definition emits_only {A} (P : event → Prop) (m : M A) : Prop :=
  ∀ w r w', m w = (r, w') → ∃ es, trace w' = trace w ++ es ∧ Forall P es.

(** The claim that the trainer leaves the mapping it is given as the
    provider constructed it. *)
Definition trainer_keeps_mapping (L : Libs) (args : Args)
    (data : dmatrix * dmatrix) (num_boost_rounds : Z) (d : pydict) : Prop :=
  ∀ w l r w',
    heap w !! l = Some d →
    train_hyp_config L args data l num_boost_rounds w = (Ok r, w') →
    heap w' !! l = Some d.

Definition demo_train : dmatrix :=
  {| dm_num_row := 3;
     dm_data := [[Fin (2 # 10); Fin (9 # 10); Fin (1 # 10)]; [Fin 7; Fin 6; Fin 5]];
     dm_label := [Fin 1; Fin 1; Fin 0];
     dm_feature_names := ["x1"; "x2"] |}.

Definition demo_test : dmatrix :=
  {| dm_num_row := 1;
     dm_data := [[Fin (8 # 10)]; [Fin 8]];
     dm_label := [Fin 1];
     dm_feature_names := ["x1"; "x2"] |}.

(** The mapping [hp_default_config(False)] returns. *)
Definition shallow_config : pydict :=
  {[ "eta" := VFloat (Fin (1 # 10)); "seed" := VInt 0;
     "subsample" := VFloat (Fin (8 # 10));
     "colsample_bytree" := VFloat (Fin (9 # 10));
     "gamma" := VFloat (Fin (16 # 10));
     "objective" := VStr "binary:logistic"; "max_depth" := VInt 6;
     "min_child_weight" := VInt 1; "silent" := VInt 1 ]}.

(** A world holding one dict object, at location 0. *)
Definition world_with (d : pydict) : world :=
  {| heap := {[ 0%nat := d ]}; trace := [] |}.

(** Both keys the diagnostics step looks up. *)
Definition has_eta_and_max_depth (d : pydict) : Prop :=
  is_Some (d !! "eta") ∧ is_Some (d !! "max_depth").

(** The number of rounds the command line asks for: the value of the flag
    unless it is absent or zero, and 512 then. *)
Definition requested_rounds (args : Args) : Z :=
  match num_boost_rounds args with
  | Some n => if decide (n = 0) then 512 else n
  | None => 512
  end.

(** The claim that a run started with [-n n] trains with [n] rounds. *)
Definition flag_sets_rounds (L : Libs) (args : Args)
    (is_default_literal : pyval → bool) (g : rng) (n : Z) : Prop :=
  num_boost_rounds args = Some n →
  ∀ r w' params rounds stop,
    main L args is_default_literal g empty_world = (r, w') →
    Training params rounds stop ∈ trace w' →
    rounds = n.

Definition is_training (e : event) : bool :=
  match e with
  | Training _ _ _ => true
  | _ => false
  end.

(** The second-to-last element of a list, counted from its end. *)
Definition second_to_last {A} (l : list A) : option A :=
  match reverse l with
  | _ :: x :: _ => Some x
  | _ => None
  end.

(** The evaluation record of the demo run. *)
Definition demo_record : pydict :=
  {[ "auc" := VFloat (Fin (88 # 100)); "error@0.5" := VStr "eval-error@0.5:0.12";
     "best_iteration" := VInt 9 ]}.

(** ** Vocabulary for the diagnostics *)

#[global] Instance Qlt_decision (x y : Q) : Decision (x < y)%Q :=
  match Qlt_le_dec x y with
  | left H => left H
  | right H => right (Qle_not_lt _ _ H)
  end.

#[global] Instance Qeq_decision (x y : Q) : Decision (x == y)%Q := Qeq_dec x y.

(** The predicted probability is above the threshold 0.5. *)
Definition above_half (p : pyfloat) : Prop :=
  match p with
  | Fin x => (1 # 2 < x)%Q
  | PInf => True
  | NInf | NaN => False
  end.

(** "(predicted probability > 0.5) equals the true label": the label is 1
    and the prediction is above the threshold, or the label is 0 and it is
    not. *)
Definition row_correct (p t : pyfloat) : Prop :=
  match t with
  | Fin q => ((q == 1)%Q ∧ above_half p) ∨ ((q == 0)%Q ∧ ¬ above_half p)
  | _ => False
  end.

#[global] Instance above_half_dec p : Decision (above_half p).
Proof. destruct p; apply _. Defined.

#[global] Instance row_correct_dec p t : Decision (row_correct p t).
Proof. destruct t; apply _. Defined.

Definition correct_rows (preds labels : list pyfloat) : nat :=
  length (filter (λ pt : pyfloat * pyfloat, row_correct pt.1 pt.2) (zip preds labels)).

(** The fraction of test rows that are correct. *)
Definition accuracy (preds labels : list pyfloat) : pyfloat :=
  Fin (Z.of_nat (correct_rows preds labels) # Pos.of_nat (length labels)).

Definition files_written (es : list event) : list (file_kind * string) :=
  omap (λ e, match e with
             | FileWritten kind path => Some (kind, path)
             | _ => None
             end) es.

Definition roc_path (args : Args) : string :=
  path_join "graphs" [channel args +:+ mode args +:+ "ROC.pdf"].

Definition importances_path (args : Args) : string :=
  path_join "graphs" [channel args +:+ mode args +:+ "xgb_importances.pdf"].

Definition predictions_path (args : Args) : string :=
  np_save_path (path_join "test"
    [channel args; "yPred_" +:+ mode args +:+ "_" +:+ channel args]).

(** A booster that has recorded no split. *)
Definition stump_booster : booster :=
  {| attributes := attributes demo_booster;
     predict := predict demo_booster;
     get_fscore := [] |}.

(** ** Vocabulary for the loader *)

(** The claim that the labels are those of the rightmost column: the labels
    of both matrices are the values of the last column at the rows of the
    split. *)
Definition labels_come_from_rightmost (L : Libs) (fname mode channel : string)
    (test_size : Q) : Prop :=
  ∀ w df dTrain dTest y_test w',
    read_hdf L fname = Some df →
    load_data L fname mode channel test_size w = (Ok ((dTrain, dTest), y_test), w') →
    ∃ header ys,
      last (df_columns df) = Some (header, ys) ∧
      take_rows (split_indices L (df_len df) test_size seed).1 ys
        = Ok (dm_label dTrain) ∧
      take_rows (split_indices L (df_len df) test_size seed).2 ys
        = Ok (dm_label dTest).

(** Two sets of libraries that answer alike wherever the loader asks: on
    the file, on the permutation for the loader's seed, on the size of the
    test part, and on what the matrix constructor accepts. *)
Definition same_for_loader (L1 L2 : Libs) (fname : string) (test_size : Q) : Prop :=
  read_hdf L1 fname = read_hdf L2 fname ∧
  (∀ n, permutation L1 24601 n = permutation L2 24601 n) ∧
  (∀ n, num_test L1 test_size n = num_test L2 test_size n) ∧
  (∀ data label names,
     dmatrix_accepts L1 data label names = dmatrix_accepts L2 data label names).

(** Libraries that differ from [demo_libs] on every seed but the loader's,
    and in what training returns. *)
Definition other_libs (table : dataframe) : Libs :=
  {| read_hdf := read_hdf (demo_libs table);
     permutation := λ s n, if decide (s = 24601) then reverse (seq 0 n) else seq 0 n;
     num_test := num_test (demo_libs table);
     dmatrix_accepts := dmatrix_accepts (demo_libs table);
     xgb_train := λ _ _ _ _ _, None;
     float_of_string := λ _, None;
     int_of_string := λ _, None;
     roc_curve_accepts := λ _ _, false;
     barh_accepts := λ _, false;
     timestamp := "Jan_01_00:00" |}.
(** * Properties of the hyperparameter provider *)

(** ** Whole-number floats *)

Lemma trunc_of_whole q z : (q == inject_Z z)%Q → trunc q = z.
Proof.
  unfold Qeq, trunc. cbn. intros H. rewrite Z.mul_1_r in H. rewrite H.
  apply Z.quot_mul. done.
Qed.

Lemma int_eq_float_whole q :
  py_int_eq_float (trunc q) (Fin q) = true ↔ whole q.
Proof.
  cbn. rewrite Qeq_bool_iff. split.
  - intros H. exists (trunc q). by symmetry.
  - intros [z Hz]. rewrite (trunc_of_whole q z Hz). by symmetry.
Qed.

Lemma coerce_step_finite k v params :
  finite_value v = true →
  coerce_step k v (Ok params) =
    Ok (if decide (coerce_value v = v) then params else <[k := coerce_value v]> params).
Proof.
  destruct v as [s|z|[q| | |]]; try done; intros _.
  - by rewrite decide_True.
  - by rewrite decide_True.
  - unfold coerce_step, coerce_value. cbn.
    fold (trunc q). destruct (Qeq_bool (inject_Z (trunc q)) q); cbn.
    + by rewrite decide_False.
    + by rewrite decide_True.
Qed.

(** The loop over any dict [m], started from any dict [p0]. *)
Lemma coerce_fold_finite (p0 m : pydict) :
  map_Forall (λ _ v, finite_value v = true) m →
  ∃ d, map_fold coerce_step (Ok p0) m = Ok d ∧
       ∀ k, d !! k = match m !! k with
                     | Some v => if decide (coerce_value v = v) then p0 !! k
                                 else Some (coerce_value v)
                     | None => p0 !! k
                     end.
Proof.
  apply (map_fold_weak_ind (λ r (m : pydict),
    map_Forall (λ _ v, finite_value v = true) m →
    ∃ d, r = Ok d ∧
         ∀ k, d !! k = match m !! k with
                       | Some v => if decide (coerce_value v = v) then p0 !! k
                                   else Some (coerce_value v)
                       | None => p0 !! k
                       end)); clear m.
  - intros _. exists p0. split; [done|]. intros k. by rewrite lookup_empty.
  - intros i x m r Hi IH Hfin.
    apply map_Forall_insert in Hfin as [Hx Hm]; [|done].
    destruct (IH Hm) as (d & -> & Hd).
    rewrite coerce_step_finite by done. eexists. split; [done|]. intros k.
    destruct (decide (i = k)) as [->|Hne].
    + rewrite lookup_insert_eq. case_decide as Hc.
      * by rewrite Hd, Hi.
      * by rewrite lookup_insert_eq.
    + rewrite lookup_insert_ne by done. case_decide.
      * apply Hd.
      * rewrite lookup_insert_ne by done. apply Hd.
Qed.

(** On a dict without special floats the loop succeeds and amounts to
    coercing every value in place. *)
Lemma coerce_whole_floats_finite (params : pydict) :
  map_Forall (λ _ v, finite_value v = true) params →
  coerce_whole_floats params = Ok (coerce_value <$> params).
Proof.
  intros Hfin. unfold coerce_whole_floats.
  destruct (coerce_fold_finite params params Hfin) as (d & -> & Hd).
  f_equal. apply map_eq. intros k. rewrite Hd, lookup_fmap.
  destruct (params !! k) as [v|] eqn:Hk; [|done]. cbn.
  case_decide as Hc; [|done]. by rewrite Hc.
Qed.

(** ** What a sample of the declared space looks like *)

Lemma choice_is_Some {A} g label (options : list A) :
  options ≠ [] → is_Some (choice g label options).
Proof.
  intros Hne. apply lookup_lt_is_Some. unfold randint.
  apply Nat.mod_upper_bound. by destruct options.
Qed.

Lemma sample_prior_ok g p :
  prior_ok p = true →
  ∃ v, sample_prior g p = Some v ∧ plain_value v = true.
Proof.
  destruct p as [v|l lo hi|l lo hi q|l opts]; cbn; intros Hok; eauto.
  apply andb_prop in Hok as [Hne Hall]. apply bool_decide_eq_true in Hne.
  destruct (choice_is_Some g l opts Hne) as [v Hv]. exists v. split; [done|].
  rewrite forallb_forall in Hall. apply Hall.
  apply list_elem_of_In. by eapply list_elem_of_lookup_2.
Qed.

Lemma coerce_value_plain v :
  plain_value v = true → coerce_value v ≠ VStr "default".
Proof.
  unfold plain_value. intros [_ Hv%bool_decide_eq_true]%andb_prop.
  destruct v as [s|z|[q| | |]]; try done. cbn. by case_match.
Qed.

Lemma hyp_space_unfold : hyp_space = [gbtree_space; dart_space].
Proof. reflexivity. Qed.

Lemma gbtree_space_ok : map_Forall (λ _ p, prior_ok p = true) gbtree_space.
Proof.
  apply (bool_decide_unpack (map_Forall (λ _ p, prior_ok p = true) gbtree_space)).
  by vm_compute.
Qed.

Lemma dart_space_ok : map_Forall (λ _ p, prior_ok p = true) dart_space.
Proof.
  apply (bool_decide_unpack (map_Forall (λ _ p, prior_ok p = true) dart_space)).
  by vm_compute.
Qed.

Lemma choice_booster g : choice g "booster" hyp_space = Some (sampled_space g).
Proof.
  unfold choice, sampled_space, dart_sampled. rewrite hyp_space_unfold.
  change (length [gbtree_space; dart_space]) with 2%nat.
  pose proof (Nat.mod_upper_bound (randint_draw g "booster") 2) as Hlt.
  unfold randint. destruct (randint_draw g "booster" mod 2)%nat as [|[|n]];
    [done|done|lia].
Qed.

Lemma sampled_space_ok g : map_Forall (λ _ p, prior_ok p = true) (sampled_space g).
Proof.
  unfold sampled_space. destruct (dart_sampled g);
    [apply dart_space_ok | apply gbtree_space_ok].
Qed.

Lemma sample_dict_ok g space :
  map_Forall (λ _ p, prior_ok p = true) space →
  sample_dict g space = Ok (omap (sample_prior g) space) ∧
  map_Forall (λ _ v, plain_value v = true) (omap (sample_prior g) space).
Proof.
  intros Hok. unfold sample_dict. split.
  - rewrite decide_True; [done|]. intros k p Hk.
    destruct (sample_prior_ok g p (Hok k p Hk)) as (v & -> & _). done.
  - intros k v. rewrite lookup_omap. destruct (space !! k) as [p|] eqn:Hk; [|done].
    cbn. intros Hv. destruct (sample_prior_ok g p (Hok k p Hk)) as (v' & Hv' & Hp).
    congruence.
Qed.

Lemma sample_space_eq g : sample_space g = Ok (raw_sample g).
Proof.
  unfold sample_space. rewrite choice_booster. cbn.
  apply sample_dict_ok, sampled_space_ok.
Qed.

Lemma raw_sample_plain g : map_Forall (λ _ v, plain_value v = true) (raw_sample g).
Proof. apply sample_dict_ok, sampled_space_ok. Qed.

(** [get_hyp_config] always returns, and what it returns is the draw with
    every value coerced; the filter removes nothing. *)
Lemma get_hyp_config_eq is_default g :
  identity_sound is_default →
  get_hyp_config is_default g = Ok (coerce_value <$> raw_sample g).
Proof.
  intros Hid. unfold get_hyp_config. rewrite sample_space_eq. cbn.
  rewrite coerce_whole_floats_finite; cbn.
  - f_equal. unfold drop_default. apply map_filter_id. intros k v.
    rewrite lookup_fmap. destruct (raw_sample g !! k) as [v0|] eqn:Hk; [|done].
    cbn. intros [= <-]. destruct (is_default (coerce_value v0)) eqn:Hd; [|done].
    apply Hid in Hd. by apply coerce_value_plain in Hd; [|eapply raw_sample_plain].
  - intros k v Hk. apply raw_sample_plain in Hk.
    by apply andb_prop in Hk as [? _].
Qed.

Lemma coerce_value_whole q z :
  (q == inject_Z z)%Q → coerce_value (VFloat (Fin q)) = VInt z.
Proof.
  intros Hz. unfold coerce_value.
  rewrite (proj2 (int_eq_float_whole q)) by (by exists z).
  by rewrite (trunc_of_whole q z).
Qed.

Lemma coerce_value_float_inv v q :
  coerce_value v = VFloat (Fin q) → v = VFloat (Fin q) ∧ ¬ whole q.
Proof.
  destruct v as [s|z|[q'| | |]]; try done. unfold coerce_value.
  destruct (py_int_eq_float (trunc q') (Fin q')) eqn:Hw; [done|].
  intros [= ->]. split; [done|]. intros Hq%int_eq_float_whole. congruence.
Qed.

Lemma raw_sample_lookup g k :
  raw_sample g !! k = sampled_space g !! k ≫= sample_prior g.
Proof. apply lookup_omap. Qed.

Lemma raw_sample_is_Some g k :
  is_Some (raw_sample g !! k) ↔ is_Some (sampled_space g !! k).
Proof.
  rewrite raw_sample_lookup. destruct (sampled_space g !! k) as [p|] eqn:Hk; cbn.
  - destruct (sample_prior_ok g p (sampled_space_ok g k p Hk)) as (v & -> & _).
    split; eauto.
  - split; intros [? ?]; done.
Qed.

(** ** Rounding to the nearest integer stays within integer bounds *)

Lemma np_round_bounds (a b : Z) (x : Q) :
  (inject_Z a <= x)%Q → (x <= inject_Z b)%Q → a ≤ np_round x ≤ b.
Proof.
  intros Ha Hb. unfold np_round.
  pose proof (Qfloor_le x) as Hfl.
  assert (a ≤ Qfloor x) as Hfa.
  { rewrite <- (Qfloor_Z a). by apply Qfloor_resp_le. }
  assert (Qfloor x ≤ b) as Hfb.
  { rewrite <- (Qfloor_Z b). by apply Qfloor_resp_le. }
  assert (Qfloor x = b → (x - inject_Z (Qfloor x) ?= 1 # 2)%Q = Lt) as Htop.
  { intros Heq. apply (proj1 (Qlt_alt _ _)). rewrite Heq in *.
    assert (x == inject_Z b)%Q as Hx by (by apply Qle_antisym).
    rewrite Hx. by setoid_replace (inject_Z b - inject_Z b)%Q with 0%Q
      using relation Qeq by ring. }
  destruct (x - inject_Z (Qfloor x) ?= 1 # 2)%Q eqn:Hc.
  - destruct (Z.even (Qfloor x)); [lia|].
    destruct (decide (Qfloor x = b)) as [Heq|]; [by apply Htop in Heq|lia].
  - lia.
  - destruct (decide (Qfloor x = b)) as [Heq|]; [by apply Htop in Heq|lia].
Qed.

(** * The claims about the hyperparameter provider *)

(** C1. Every whole-number float of the draw is returned as the integer it
    denotes, no whole-number float is left in the returned mapping, and no
    key of the returned mapping has the string "default" as its value. *)
Theorem get_hyp_config_whole_floats_are_ints
    (is_default : pyval → bool) (g : rng) (sampled : pydict) :
  identity_sound is_default →
  sample_space g = Ok sampled →
  ∃ params, get_hyp_config is_default g = Ok params ∧
    (∀ k q z, sampled !! k = Some (VFloat (Fin q)) → (q == inject_Z z)%Q →
              params !! k = Some (VInt z)) ∧
    (∀ k q, params !! k = Some (VFloat (Fin q)) → ¬ whole q) ∧
    (∀ k, params !! k ≠ Some (VStr "default")).
Proof.
  intros Hid Hs. rewrite sample_space_eq in Hs. injection Hs as <-.
  exists (coerce_value <$> raw_sample g). split; [by apply get_hyp_config_eq|].
  split; [|split].
  - intros k q z Hk Hz. by rewrite lookup_fmap, Hk, <- (coerce_value_whole q z).
  - intros k q. rewrite lookup_fmap.
    destruct (raw_sample g !! k) as [v|]; [|done]. cbn. intros [= Hv].
    by apply coerce_value_float_inv in Hv as [_ ?].
  - intros k. rewrite lookup_fmap.
    destruct (raw_sample g !! k) as [v|] eqn:Hk; [|done]. cbn. intros [= Hv].
    by eapply coerce_value_plain, Hv; eapply raw_sample_plain.
Qed.

Lemma get_hyp_config_whole_floats_are_ints_witness :
  ∃ params, get_hyp_config interned_identity upper_rng = Ok params ∧
    (∀ k q z, raw_sample upper_rng !! k = Some (VFloat (Fin q)) →
              (q == inject_Z z)%Q → params !! k = Some (VInt z)) ∧
    (∀ k q, params !! k = Some (VFloat (Fin q)) → ¬ whole q) ∧
    (∀ k, params !! k ≠ Some (VStr "default")).
Proof.
  apply (get_hyp_config_whole_floats_are_ints interned_identity upper_rng
           (raw_sample upper_rng)).
  - intros v Hv. by apply bool_decide_eq_true in Hv.
  - vm_compute. reflexivity.
Defined.

(** The draw of [upper_rng] has max_depth 9.0 and subsample 1.0; both come
    back as integers. *)
Example get_hyp_config_upper :
  ∃ params, get_hyp_config interned_identity upper_rng = Ok params ∧
    raw_sample upper_rng !! "max_depth" = Some (VFloat (Fin (9 * 1))) ∧
    params !! "max_depth" = Some (VInt 9) ∧
    params !! "subsample" = Some (VInt 1) ∧
    params !! "eta" = Some (VFloat (Fin (17 # 100))).
Proof. eexists. split; [by vm_compute|]. by vm_compute. Qed.

Lemma gbtree_space_keys k :
  is_Some (gbtree_space !! k) ↔ k ∈ common_keys.
Proof.
  rewrite <- elem_of_dom.
  replace (dom gbtree_space) with (list_to_set common_keys : gset string)
    by (by vm_compute).
  apply elem_of_list_to_set.
Qed.

Lemma dart_space_keys k :
  is_Some (dart_space !! k) ↔ k ∈ common_keys ∨ k ∈ dart_keys.
Proof.
  rewrite <- elem_of_dom.
  replace (dom dart_space)
    with (list_to_set (common_keys ++ dart_keys) : gset string)
    by (by vm_compute).
  rewrite elem_of_list_to_set. apply elem_of_app.
Qed.

Lemma common_dart_keys_disjoint k : k ∈ common_keys → k ∈ dart_keys → False.
Proof.
  unfold common_keys, dart_keys. intros Hc Hd.
  set_unfold. destruct_or!; subst; destruct_or?; done.
Qed.

Lemma sampled_booster g :
  raw_sample g !! "booster" =
    Some (VStr (if dart_sampled g then "dart" else "gbtree")).
Proof.
  rewrite raw_sample_lookup. unfold sampled_space.
  by destruct (dart_sampled g); vm_compute.
Qed.

(** C4. The returned mapping has every common tree-boosting key; it has a
    dropout-specific key if and only if the dropout branch was drawn; and
    its booster is 'dart' in that case and 'gbtree' otherwise. *)
Theorem get_hyp_config_keys (is_default : pyval → bool) (g : rng) :
  identity_sound is_default →
  ∃ params, get_hyp_config is_default g = Ok params ∧
    (∀ k, k ∈ common_keys → is_Some (params !! k)) ∧
    (∀ k, k ∈ dart_keys → (is_Some (params !! k) ↔ dart_sampled g = true)) ∧
    params !! "booster" = Some (VStr (if dart_sampled g then "dart" else "gbtree")).
Proof.
  intros Hid. exists (coerce_value <$> raw_sample g).
  split; [by apply get_hyp_config_eq|].
  assert (∀ k, is_Some ((coerce_value <$> raw_sample g) !! k) ↔
               is_Some (sampled_space g !! k)) as Hdom.
  { intros k. rewrite lookup_fmap, fmap_is_Some. apply raw_sample_is_Some. }
  split; [|split].
  - intros k Hk. apply Hdom. unfold sampled_space. destruct (dart_sampled g).
    + apply dart_space_keys. by left.
    + by apply gbtree_space_keys.
  - intros k Hk. rewrite Hdom. unfold sampled_space. destruct (dart_sampled g).
    + split; [done|]. intros _. apply dart_space_keys. by right.
    + rewrite gbtree_space_keys. split; [|done].
      intros Hc. by destruct (common_dart_keys_disjoint k).
  - by rewrite lookup_fmap, sampled_booster.
Qed.

Lemma get_hyp_config_keys_witness :
  ∃ params, get_hyp_config interned_identity midpoint_rng = Ok params ∧
    (∀ k, k ∈ common_keys → is_Some (params !! k)) ∧
    (∀ k, k ∈ dart_keys →
          (is_Some (params !! k) ↔ dart_sampled midpoint_rng = true)) ∧
    params !! "booster" =
      Some (VStr (if dart_sampled midpoint_rng then "dart" else "gbtree")).
Proof.
  apply (get_hyp_config_keys interned_identity midpoint_rng).
  intros v Hv. by apply bool_decide_eq_true in Hv.
Defined.

(** Both branches, run: the tree branch has no dropout key, the dropout
    branch has all four. *)
Example get_hyp_config_branches :
  (∃ params, get_hyp_config interned_identity midpoint_rng = Ok params ∧
     params !! "booster" = Some (VStr "gbtree") ∧
     params !! "rate_drop" = None) ∧
  (∃ params, get_hyp_config interned_identity upper_rng = Ok params ∧
     params !! "booster" = Some (VStr "dart") ∧
     params !! "sample_type" = Some (VStr "weighted") ∧
     params !! "rate_drop" = Some (VFloat (Fin (3 # 10)))).
Proof. split; (eexists; split; [by vm_compute|]; by vm_compute). Qed.

Lemma sampled_max_depth g :
  sampled_space g !! "max_depth" = Some (hp_quniform "md" 3 9 1).
Proof. unfold sampled_space. by destruct (dart_sampled g); vm_compute. Qed.

Lemma sampled_eta g :
  sampled_space g !! "eta" = Some (hp_uniform "lr" (1 # 100) (17 # 100)).
Proof. unfold sampled_space. by destruct (dart_sampled g); vm_compute. Qed.

(** C10. The returned max_depth is an integer between 3 and 9: the depth
    draw lies in [3, 9], rounding keeps it there, and the rounded value is a
    whole-number float, which the loop turns into an integer. *)
Theorem get_hyp_config_max_depth (is_default : pyval → bool) (g : rng) :
  identity_sound is_default →
  rng_ok g →
  ∃ params n, get_hyp_config is_default g = Ok params ∧
    params !! "max_depth" = Some (VInt n) ∧ 3 ≤ n ≤ 9.
Proof.
  intros Hid Hg. exists (coerce_value <$> raw_sample g).
  set (u := uniform_draw g "md" 3 9). exists (np_round (u / 1)).
  split; [by apply get_hyp_config_eq|]. split.
  - rewrite lookup_fmap, raw_sample_lookup, sampled_max_depth. cbn.
    f_equal. apply coerce_value_whole. apply Qmult_1_r.
  - destruct (Hg "md" 3%Q 9%Q) as [Hlo Hhi]; [done|]. fold u in Hlo, Hhi.
    assert (u / 1 == u)%Q as Hu by (unfold Qdiv; apply Qmult_1_r).
    apply np_round_bounds; by rewrite Hu.
Qed.

Lemma get_hyp_config_max_depth_witness :
  ∃ params n, get_hyp_config interned_identity midpoint_rng = Ok params ∧
    params !! "max_depth" = Some (VInt n) ∧ 3 ≤ n ≤ 9.
Proof.
  apply (get_hyp_config_max_depth interned_identity midpoint_rng).
  - intros v Hv. by apply bool_decide_eq_true in Hv.
  - intros label low high Hle. cbn. split.
    + apply Qle_shift_div_l; [done|]. rewrite <- (Qplus_le_r _ _ (- low)).
      ring_simplify. by ring_simplify in Hle.
    + apply Qle_shift_div_r; [done|]. rewrite <- (Qplus_le_r _ _ (- high)).
      ring_simplify. by ring_simplify in Hle.
Defined.

(** * Reasoning about computations *)

Lemma bind_inv {A B} (m : M A) (k : A → M B) w r w' :
  (m ≫= k) w = (r, w') →
  (∃ a w1, m w = (Ok a, w1) ∧ k a w1 = (r, w')) ∨
  (∃ e, m w = (Raise e, w') ∧ r = Raise e).
Proof.
  unfold mbind, M_bind. destruct (m w) as [[a|e] w1]; intros H.
  - left. eauto.
  - right. exists e. by simplify_eq.
Qed.

Lemma bind_ok {A B} (m : M A) (k : A → M B) w a w1 :
  m w = (Ok a, w1) → (m ≫= k) w = k a w1.
Proof. unfold mbind, M_bind. by intros ->. Qed.

Lemma bind_raise {A B} (m : M A) (k : A → M B) w e w1 :
  m w = (Raise e, w1) → (m ≫= k) w = (Raise e, w1).
Proof. unfold mbind, M_bind. by intros ->. Qed.

Section Heap.
Context {A B : Type}.

Lemma keeps_heap_ret (a : A) : keeps_heap (mret a).
Proof. by intros w r w' [= <- <-]. Qed.

Lemma keeps_heap_lift (x : result A) : keeps_heap (lift x).
Proof. by intros w r w' [= <- <-]. Qed.

Lemma keeps_heap_bind (m : M A) (k : A → M B) :
  keeps_heap m → (∀ a, keeps_heap (k a)) → keeps_heap (m ≫= k).
Proof.
  intros Hm Hk w r w' [(a & w1 & H1 & H2)|(e & H1 & _)]%bind_inv.
  - rewrite (Hk a _ _ _ H2). eauto.
  - eauto.
Qed.
End Heap.

Lemma keeps_heap_emit e : keeps_heap (emit e).
Proof. by intros w r w' [= <- <-]. Qed.

Lemma keeps_heap_items l : keeps_heap (dict_items l).
Proof.
  intros w r w'. unfold dict_items. by destruct (heap w !! l); intros [= <- <-].
Qed.

Lemma keeps_heap_getitem l k : keeps_heap (dict_getitem l k).
Proof.
  intros w r w'. unfold dict_getitem. by destruct (heap w !! l); intros [= <- <-].
Qed.

Create HintDb keeps.
#[global] Hint Resolve keeps_heap_ret keeps_heap_lift keeps_heap_emit
  keeps_heap_items keeps_heap_getitem : keeps.

Ltac keeps_heap :=
  repeat first
    [ apply keeps_heap_bind; [|intros ?]
    | progress eauto with keeps
    | match goal with |- keeps_heap (let '(_, _) := ?p in _) => destruct p end
    | match goal with |- keeps_heap (if ?b then _ else _) => destruct b end ].

Lemma setitem_inv l k v w r w' d :
  heap w !! l = Some d →
  dict_setitem l k v w = (r, w') →
  r = Ok () ∧ heap w' = <[l := <[k := v]> d]> (heap w) ∧ trace w' = trace w.
Proof. unfold dict_setitem. intros ->. by intros [= <- <-]. Qed.

(** * The trainer and the mapping it is given *)

(** Whatever the trainer does and however it ends, the dict it was handed
    is afterwards the old one with 'eval_metric' set, and no other dict
    object has changed. *)
Lemma train_hyp_config_heap L args data l n w d r w' :
  heap w !! l = Some d →
  train_hyp_config L args data l n w = (r, w') →
  heap w' = <[l := <["eval_metric" := VStr "error@0.5"]> d]> (heap w).
Proof.
  intros Hl. unfold train_hyp_config.
  intros [(a & w1 & H1 & H2)|(e & H1 & _)]%bind_inv.
  - destruct (setitem_inv _ _ _ _ _ _ _ Hl H1) as (_ & <- & _).
    eapply (λ K : keeps_heap _, K w1 r w'); [|exact H2]. keeps_heap.
  - by destruct (setitem_inv _ _ _ _ _ _ _ Hl H1) as (? & _).
Qed.

(** C2, as stated, fails: after training on the shallow default mapping the
    dict has a key it did not have when it was constructed. *)
Lemma trainer_keeps_mapping_fails :
  ¬ trainer_keeps_mapping (demo_libs demo_table) (demo_args None false false)
      (demo_train, demo_test) 512 shallow_config.
Proof.
  intros H.
  destruct (train_hyp_config (demo_libs demo_table) (demo_args None false false)
              (demo_train, demo_test) 0%nat 512 (world_with shallow_config))
    as [[r|e] w'] eqn:Hrun; [|by vm_compute in Hrun].
  pose proof (H (world_with shallow_config) 0%nat r w' eq_refl Hrun) as Hsame.
  rewrite (train_hyp_config_heap _ _ _ 0%nat _ (world_with shallow_config)
             shallow_config _ _ eq_refl Hrun) in Hsame.
  rewrite lookup_insert_eq in Hsame. apply (inj Some) in Hsame.
  apply (f_equal (λ d : pydict, d !! "eval_metric")) in Hsame.
  by rewrite lookup_insert_eq in Hsame.
Qed.

(** C2, amended.  When [train_hyp_config] returns or raises, the mapping it
    was given has 'eval_metric' set to 'error@0.5' and every other key and
    value as before; the other dict objects are unchanged. *)
Theorem train_hyp_config_sets_eval_metric
    (L : Libs) (args : Args) (data : dmatrix * dmatrix) (l : loc) (n : Z)
    (w : world) (d : pydict) (r : result (booster * pydict)) (w' : world) :
  heap w !! l = Some d →
  train_hyp_config L args data l n w = (r, w') →
  ∃ d', heap w' !! l = Some d' ∧
    d' !! "eval_metric" = Some (VStr "error@0.5") ∧
    (∀ k, k ≠ "eval_metric" → d' !! k = d !! k) ∧
    (∀ l', l' ≠ l → heap w' !! l' = heap w !! l').
Proof.
  intros Hl Hrun. rewrite (train_hyp_config_heap _ _ _ _ _ _ _ _ _ Hl Hrun).
  eexists. split; [apply lookup_insert_eq|]. split; [apply lookup_insert_eq|].
  split.
  - intros k Hk. by apply lookup_insert_ne.
  - intros l' Hl'. by apply lookup_insert_ne.
Qed.

Lemma train_hyp_config_sets_eval_metric_witness :
  ∃ d', heap (train_hyp_config (demo_libs demo_table) (demo_args None false false)
                (demo_train, demo_test) 0%nat 512 (world_with shallow_config)).2
          !! 0%nat = Some d' ∧
    d' !! "eval_metric" = Some (VStr "error@0.5") ∧
    (∀ k, k ≠ "eval_metric" → d' !! k = shallow_config !! k) ∧
    (∀ l', l' ≠ 0%nat →
       heap (train_hyp_config (demo_libs demo_table) (demo_args None false false)
               (demo_train, demo_test) 0%nat 512 (world_with shallow_config)).2
         !! l' = heap (world_with shallow_config) !! l').
Proof.
  apply (train_hyp_config_sets_eval_metric (demo_libs demo_table)
           (demo_args None false false) (demo_train, demo_test) 0%nat 512
           (world_with shallow_config) shallow_config
           (train_hyp_config (demo_libs demo_table) (demo_args None false false)
              (demo_train, demo_test) 0%nat 512 (world_with shallow_config)).1).
  - reflexivity.
  - apply surjective_pairing.
Defined.

Example hp_default_config_shallow w :
  hp_default_config false w = (Ok shallow_config, w).
Proof. reflexivity. Qed.

(** * Traces *)

Section Emits.
Context {A B : Type} (P : event → Prop).

Lemma emits_only_ret (a : A) : emits_only P (mret a).
Proof. intros w r w' [= <- <-]. exists []. by rewrite app_nil_r. Qed.

Lemma emits_only_lift (x : result A) : emits_only P (lift x).
Proof. intros w r w' [= <- <-]. exists []. by rewrite app_nil_r. Qed.

Lemma emits_only_bind (m : M A) (k : A → M B) :
  emits_only P m → (∀ a, emits_only P (k a)) → emits_only P (m ≫= k).
Proof.
  intros Hm Hk w r w' [(a & w1 & H1 & H2)|(e & H1 & _)]%bind_inv.
  - destruct (Hm _ _ _ H1) as (es1 & E1 & F1).
    destruct (Hk a _ _ _ H2) as (es2 & E2 & F2).
    exists (es1 ++ es2). split; [by rewrite E2, E1, app_assoc|].
    by apply Forall_app.
  - eauto.
Qed.

Lemma emits_only_emit e : P e → emits_only P (emit e).
Proof. intros He w r w' [= <- <-]. exists [e]. split; [done|]. by constructor. Qed.

Lemma emits_only_new_dict d : emits_only P (new_dict d).
Proof. intros w r w' [= <- <-]. exists []. by rewrite app_nil_r. Qed.

Lemma emits_only_setitem l k v : emits_only P (dict_setitem l k v).
Proof.
  intros w r w'. unfold dict_setitem.
  destruct (heap w !! l); intros [= <- <-]; exists []; by rewrite app_nil_r.
Qed.

Lemma emits_only_getitem l k : emits_only P (dict_getitem l k).
Proof.
  intros w r w'. unfold dict_getitem.
  destruct (heap w !! l); intros [= <- <-]; exists []; by rewrite app_nil_r.
Qed.

Lemma emits_only_items l : emits_only P (dict_items l).
Proof.
  intros w r w'. unfold dict_items.
  destruct (heap w !! l); intros [= <- <-]; exists []; by rewrite app_nil_r.
Qed.
End Emits.

Lemma emits_only_weaken {A} (P Q : event → Prop) (m : M A) :
  (∀ e, P e → Q e) → emits_only P m → emits_only Q m.
Proof.
  intros HPQ Hm w r w' Hrun. destruct (Hm _ _ _ Hrun) as (es & E & F).
  exists es. split; [done|]. by eapply Forall_impl.
Qed.

Ltac emits_only :=
  repeat first
    [ apply emits_only_bind; [|intros ?]
    | apply emits_only_ret
    | apply emits_only_lift
    | apply emits_only_new_dict
    | apply emits_only_setitem
    | apply emits_only_getitem
    | apply emits_only_items
    | apply emits_only_emit
    | match goal with |- emits_only _ (let '(_, _) := ?p in _) => destruct p end
    | match goal with |- emits_only _ (if ?b then _ else _) => destruct b end
    | match goal with |- emits_only _ (match ?x with _ => _ end) => destruct x end ].

(** Apart from training, the steps of the pipeline emit no training event. *)
Lemma load_data_emits L fname mode channel test_size :
  emits_only (λ e, is_training e = false) (load_data L fname mode channel test_size).
Proof. unfold load_data. emits_only; done. Qed.

Lemma hp_default_config_emits deep :
  emits_only (λ e, is_training e = false) (hp_default_config deep).
Proof. unfold hp_default_config. emits_only; done. Qed.

Lemma save_results_emits L args results :
  emits_only (λ e, is_training e = false) (save_results L args results).
Proof. unfold save_results. emits_only; done. Qed.

Lemma diagnostics_emits L args hp data y bst :
  emits_only (λ e, is_training e = false) (diagnostics L args hp data y bst).
Proof.
  unfold diagnostics, plot_ROC_curve, plot_importances. emits_only; done.
Qed.

(** The trainer emits one kind of training event: the call it makes, with
    the number of rounds it was given and a patience of 256 rounds. *)
Lemma train_hyp_config_emits L args data l n :
  emits_only (λ e, ∀ p rounds stop, e = Training p rounds stop →
                   rounds = n ∧ stop = 256)
    (train_hyp_config L args data l n).
Proof.
  unfold train_hyp_config. emits_only; try done.
  intros p rounds stop [= _ <- <-]. done.
Qed.

Lemma main_emits L args is_default g :
  emits_only (λ e, ∀ p rounds stop, e = Training p rounds stop →
                   rounds = boost_rounds args ∧ stop = 256)
    (main L args is_default g).
Proof.
  assert (∀ A (m : M A), emits_only (λ e, is_training e = false) m →
            emits_only (λ e, ∀ p rounds stop, e = Training p rounds stop →
                             rounds = boost_rounds args ∧ stop = 256) m) as Hno.
  { intros A m. apply emits_only_weaken. by intros e He p rounds stop ->. }
  unfold main.
  apply emits_only_bind; [by apply emits_only_emit|intros _].
  apply emits_only_bind; [apply Hno, load_data_emits|intros [data y]].
  apply emits_only_bind.
  { destruct (randomhp args).
    - emits_only. done.
    - apply emits_only_bind; [by apply emits_only_emit|intros _].
      apply emits_only_bind; [apply Hno, hp_default_config_emits|intros d].
      apply emits_only_new_dict. }
  intros hp.
  apply emits_only_bind; [by apply emits_only_emit|intros _].
  apply emits_only_bind; [apply train_hyp_config_emits|intros [bst results]].
  apply emits_only_bind; [apply Hno, save_results_emits|intros _].
  destruct (diagnostics_flag args).
  - apply Hno, diagnostics_emits.
  - apply emits_only_ret.
Qed.

Lemma boost_rounds_eq args : boost_rounds args = requested_rounds args.
Proof.
  unfold boost_rounds, requested_rounds, truthy.
  destruct (num_boost_rounds args) as [n|]; [|done]. cbn.
  destruct (Z.eqb_spec n 0) as [->|Hn]; cbn.
  - done.
  - by rewrite decide_False.
Qed.

(** * The number of boosting rounds *)

Lemma elem_of_trace_suffix (w w' : world) es e :
  trace w' = trace w ++ es → trace w = [] → e ∈ trace w' → e ∈ es.
Proof. intros -> ->. done. Qed.

(** The trainer, when it returns, has made its training call. *)
Lemma train_hyp_config_trains L args data l n w r w' :
  train_hyp_config L args data l n w = (Ok r, w') →
  ∃ p, Training p n 256 ∈ trace w'.
Proof.
  unfold train_hyp_config. destruct data as [dTrain dTest].
  intros [(? & w1 & H1 & H)|(? & _ & [=])]%bind_inv.
  apply bind_inv in H as [(items & w2 & H2 & H)|(? & _ & [=])].
  apply bind_inv in H as [(? & w3 & H3 & H)|(? & _ & [=])].
  apply bind_inv in H as [(? & w4 & H4 & H)|(? & _ & [=])].
  injection H4 as _ <-.
  eassert (emits_only (λ _, True) _) as Hrest; [|
    destruct (Hrest _ _ _ H) as (es & -> & _)].
  { emits_only; done. }
  eexists. cbn. rewrite !elem_of_app. left. right. by apply list_elem_of_singleton.
Qed.

(** A run of the main program that ends normally has trained. *)
Lemma main_trains L args is_default g w w' :
  main L args is_default g w = (Ok (), w') →
  ∃ p, Training p (boost_rounds args) 256 ∈ trace w'.
Proof.
  unfold main.
  intros [(? & w1 & _ & H)|(? & _ & [=])]%bind_inv.
  apply bind_inv in H as [([data y] & w2 & _ & H)|(? & _ & [=])].
  apply bind_inv in H as [(hp & w3 & _ & H)|(? & _ & [=])].
  apply bind_inv in H as [(? & w4 & _ & H)|(? & _ & [=])].
  apply bind_inv in H as [([bst results] & w5 & Htrain & H)|(? & _ & [=])].
  destruct (train_hyp_config_trains _ _ _ _ _ _ _ _ Htrain) as [p Hp].
  eassert (emits_only (λ _, True) _) as Hrest; [|
    destruct (Hrest _ _ _ H) as (es & -> & _)].
  { apply emits_only_bind; [|intros ?; destruct (diagnostics_flag args)].
    - eapply emits_only_weaken, save_results_emits. done.
    - eapply emits_only_weaken, diagnostics_emits. done.
    - apply emits_only_ret. }
  exists p. apply elem_of_app. by left.
Qed.

(** C6, as stated, fails for the value 0: a run started with [-n 0] trains
    with 512 rounds. *)
Lemma flag_sets_rounds_fails :
  ¬ flag_sets_rounds (demo_libs demo_table) (demo_args (Some 0) false false)
      interned_identity midpoint_rng 0.
Proof.
  intros H.
  destruct (main (demo_libs demo_table) (demo_args (Some 0) false false)
              interned_identity midpoint_rng empty_world) as [r w'] eqn:Hrun.
  assert (r = Ok ()) as -> by (by vm_compute in Hrun; simplify_eq).
  destruct (main_trains _ _ _ _ _ _ Hrun) as [p Hp].
  by specialize (H eq_refl _ _ _ _ _ Hrun Hp).
Qed.

(** C6, amended.  Every training call of a run is made with the number of
    rounds given by the flag when that number is not zero, and with 512
    when the flag is absent or zero; and a run that ends normally has made
    such a call. *)
Theorem main_trains_with_requested_rounds
    (L : Libs) (args : Args) (is_default : pyval → bool) (g : rng)
    (r : result ()) (w' : world) :
  main L args is_default g empty_world = (r, w') →
  (∀ params rounds stop, Training params rounds stop ∈ trace w' →
     rounds = requested_rounds args) ∧
  (r = Ok () → ∃ params, Training params (requested_rounds args) 256 ∈ trace w').
Proof.
  intros Hrun. rewrite <- boost_rounds_eq. split.
  - intros params rounds stop Hin.
    destruct (main_emits L args is_default g _ _ _ Hrun) as (es & E & F).
    eapply elem_of_trace_suffix in Hin; [|done..].
    rewrite Forall_forall in F. by destruct (F _ Hin params rounds stop).
  - intros ->. by eapply main_trains.
Qed.

Lemma main_trains_with_requested_rounds_witness :
  (∀ params rounds stop,
     Training params rounds stop ∈
       trace (main (demo_libs demo_table) (demo_args (Some 10) false true)
                interned_identity midpoint_rng empty_world).2 →
     rounds = 10) ∧
  ((main (demo_libs demo_table) (demo_args (Some 10) false true)
      interned_identity midpoint_rng empty_world).1 = Ok () →
   ∃ params,
     Training params 10 256 ∈
       trace (main (demo_libs demo_table) (demo_args (Some 10) false true)
                interned_identity midpoint_rng empty_world).2).
Proof.
  apply (main_trains_with_requested_rounds (demo_libs demo_table)
           (demo_args (Some 10) false true) interned_identity midpoint_rng).
  apply surjective_pairing.
Defined.

Example requested_rounds_cases :
  requested_rounds (demo_args (Some 10) false false) = 10 ∧
  requested_rounds (demo_args (Some (-5)) false false) = -5 ∧
  requested_rounds (demo_args (Some 0) false false) = 512 ∧
  requested_rounds (demo_args None false false) = 512.
Proof. done. Qed.

(** * The keys the diagnostics step looks up *)

Lemma getitem_ok l k w d v :
  heap w !! l = Some d → d !! k = Some v → dict_getitem l k w = (Ok v, w).
Proof. unfold dict_getitem. by intros -> ->. Qed.

Lemma hp_default_config_returns deep w :
  ∃ d w', hp_default_config deep w = (Ok d, w') ∧ has_eta_and_max_depth d.
Proof.
  destruct deep; (do 2 eexists; split; [reflexivity|]); split; vm_compute; eauto.
Qed.

Lemma get_hyp_config_has_keys is_default g :
  identity_sound is_default →
  ∃ d, get_hyp_config is_default g = Ok d ∧ has_eta_and_max_depth d.
Proof.
  intros Hid. eexists. split; [by apply get_hyp_config_eq|].
  split; rewrite lookup_fmap, fmap_is_Some, raw_sample_is_Some.
  - by rewrite sampled_eta.
  - by rewrite sampled_max_depth.
Qed.

(** C9. Both presets and every random draw have the keys 'eta' and
    'max_depth'; the trainer, which writes into the mapping, leaves them in
    place; so the two lookups of the diagnostics step find their keys. *)
Theorem hp_lookups_find_their_keys
    (L : Libs) (args : Args) (data : dmatrix * dmatrix) (n : Z)
    (is_default : pyval → bool) (g : rng) (deep : bool) (w0 : world) :
  identity_sound is_default →
  (∃ d w1, hp_default_config deep w0 = (Ok d, w1)) ∧
  (∃ d, get_hyp_config is_default g = Ok d) ∧
  ∀ d, (hp_default_config deep w0).1 = Ok d ∨ get_hyp_config is_default g = Ok d →
    has_eta_and_max_depth d ∧
    ∀ w l r w',
      heap w !! l = Some d →
      train_hyp_config L args data l n w = (r, w') →
      ∃ eta max_depth,
        dict_getitem l "eta" w' = (Ok eta, w') ∧
        dict_getitem l "max_depth" w' = (Ok max_depth, w').
Proof.
  intros Hid.
  destruct (hp_default_config_returns deep w0) as (d1 & w1 & H1 & K1).
  destruct (get_hyp_config_has_keys is_default g Hid) as (d2 & H2 & K2).
  split; [eauto|]. split; [eauto|]. intros d Hd.
  assert (has_eta_and_max_depth d) as [[eta He] [depth Hm]].
  { destruct Hd as [Hd|Hd].
    - rewrite H1 in Hd. by injection Hd as <-.
    - rewrite H2 in Hd. by injection Hd as <-. }
  split; [split; eauto|]. intros w l r w' Hl Hrun.
  pose proof (train_hyp_config_heap _ _ _ _ _ _ _ _ _ Hl Hrun) as Hheap.
  exists eta, depth. split.
  - eapply getitem_ok; [by rewrite Hheap, lookup_insert_eq|].
    by rewrite lookup_insert_ne.
  - eapply getitem_ok; [by rewrite Hheap, lookup_insert_eq|].
    by rewrite lookup_insert_ne.
Qed.

Lemma hp_lookups_find_their_keys_witness :
  (∃ d w1, hp_default_config true empty_world = (Ok d, w1)) ∧
  (∃ d, get_hyp_config interned_identity upper_rng = Ok d) ∧
  ∀ d, (hp_default_config true empty_world).1 = Ok d ∨
       get_hyp_config interned_identity upper_rng = Ok d →
    has_eta_and_max_depth d ∧
    ∀ w l r w',
      heap w !! l = Some d →
      train_hyp_config (demo_libs demo_table) (demo_args None true true)
        (demo_train, demo_test) l 512 w = (r, w') →
      ∃ eta max_depth,
        dict_getitem l "eta" w' = (Ok eta, w') ∧
        dict_getitem l "max_depth" w' = (Ok max_depth, w').
Proof.
  apply (hp_lookups_find_their_keys (demo_libs demo_table)
           (demo_args None true true) (demo_train, demo_test) 512
           interned_identity upper_rng true empty_world).
  intros v Hv. by apply bool_decide_eq_true in Hv.
Defined.

(** * The evaluation record *)

Lemma rbind_ok_inv {A B} (r : result A) (k : A → result B) b :
  r ≫= k = Ok b → ∃ a, r = Ok a ∧ k a = Ok b.
Proof. destruct r as [a|e]; [|done]. intros H. by exists a. Qed.

Lemma of_option_ok_inv {A} e (o : option A) a : of_option e o = Ok a → o = Some a.
Proof. destruct o; [|done]. by intros [= ->]. Qed.

Lemma lift_inv {A} (x : result A) w r w' : lift x w = (r, w') → r = x ∧ w' = w.
Proof. by intros [= <- <-]. Qed.

Lemma py_index_minus_2 {A} (l : list A) x :
  py_index l (-2) = Ok x → second_to_last l = Some x.
Proof.
  unfold py_index. rewrite decide_False by lia.
  case_decide as Hlen; [|done]. intros Hx%of_option_ok_inv.
  replace (Z.to_nat (Z.of_nat (length l) + -2)) with (length l - 2)%nat in Hx by lia.
  unfold second_to_last.
  assert (reverse l !! 1%nat = Some x) as Hr.
  { by rewrite reverse_lookup by lia. }
  by destruct (reverse l) as [|a [|b t]]; simplify_eq/=.
Qed.

(** C8. A record returned by the trainer has exactly the keys auc,
    error@0.5 and best_iteration; auc is the float read from the model's
    best score, best_iteration the integer read from its best iteration,
    and error@0.5 the string that is the second-to-last tab-delimited field
    of its best message. *)
Theorem train_hyp_config_record
    (L : Libs) (args : Args) (data : dmatrix * dmatrix) (l : loc) (n : Z)
    (w : world) (bst : booster) (evalDict : pydict) (w' : world) :
  train_hyp_config L args data l n w = (Ok (bst, evalDict), w') →
  ∃ best_score best_msg best_iteration auc error iteration,
    attr bst "best_score" = Some best_score ∧
    attr bst "best_msg" = Some best_msg ∧
    attr bst "best_iteration" = Some best_iteration ∧
    float_of_string L best_score = Some auc ∧
    second_to_last (split tab best_msg) = Some error ∧
    int_of_string L best_iteration = Some iteration ∧
    dom evalDict = {[ "auc"; "error@0.5"; "best_iteration" ]} ∧
    evalDict !! "auc" = Some (VFloat auc) ∧
    evalDict !! "error@0.5" = Some (VStr error) ∧
    evalDict !! "best_iteration" = Some (VInt iteration).
Proof.
  unfold train_hyp_config. destruct data as [dTrain dTest].
  intros [(? & w1 & _ & H)|(? & _ & [=])]%bind_inv.
  apply bind_inv in H as [(items & w2 & _ & H)|(? & _ & [=])].
  apply bind_inv in H as [(? & w3 & _ & H)|(? & _ & [=])].
  apply bind_inv in H as [(? & w4 & _ & H)|(? & _ & [=])].
  apply bind_inv in H as [(bst' & w5 & _ & H)|(? & _ & [=])].
  apply bind_inv in H as [(? & w6 & _ & H)|(? & _ & [=])].
  apply bind_inv in H as [(? & w7 & _ & H)|(? & _ & [=])].
  apply bind_inv in H as [(d & w8 & [Hd _]%lift_inv & H)|(? & _ & [=])].
  apply bind_inv in H as [(? & w9 & _ & H)|(? & _ & [=])].
  injection H as -> -> _. symmetry in Hd.
  apply rbind_ok_inv in Hd as (best_score & Hs%of_option_ok_inv & Hd).
  apply rbind_ok_inv in Hd as (auc & Ha%of_option_ok_inv & Hd).
  apply rbind_ok_inv in Hd as (best_msg & Hm%of_option_ok_inv & Hd).
  apply rbind_ok_inv in Hd as (error & He%py_index_minus_2 & Hd).
  apply rbind_ok_inv in Hd as (best_iteration & Hi%of_option_ok_inv & Hd).
  apply rbind_ok_inv in Hd as (iteration & Hn%of_option_ok_inv & Hd).
  injection Hd as <-.
  exists best_score, best_msg, best_iteration, auc, error, iteration.
  repeat split; done.
Qed.

Lemma train_hyp_config_record_witness :
  ∃ best_score best_msg best_iteration auc error iteration,
    attr demo_booster "best_score" = Some best_score ∧
    attr demo_booster "best_msg" = Some best_msg ∧
    attr demo_booster "best_iteration" = Some best_iteration ∧
    float_of_string (demo_libs demo_table) best_score = Some auc ∧
    second_to_last (split tab best_msg) = Some error ∧
    int_of_string (demo_libs demo_table) best_iteration = Some iteration ∧
    dom demo_record = {[ "auc"; "error@0.5"; "best_iteration" ]} ∧
    demo_record !! "auc" = Some (VFloat auc) ∧
    demo_record !! "error@0.5" = Some (VStr error) ∧
    demo_record !! "best_iteration" = Some (VInt iteration).
Proof.
  apply (train_hyp_config_record (demo_libs demo_table)
           (demo_args None false false) (demo_train, demo_test) 0%nat 512
           (world_with shallow_config) demo_booster demo_record
           (train_hyp_config (demo_libs demo_table) (demo_args None false false)
              (demo_train, demo_test) 0%nat 512 (world_with shallow_config)).2).
  vm_compute. reflexivity.
Defined.

(** The record of the demo run. *)
Example train_hyp_config_record_demo :
  (train_hyp_config (demo_libs demo_table) (demo_args None false false)
     (demo_train, demo_test) 0%nat 512 (world_with shallow_config)).1
  = Ok (demo_booster, demo_record).
Proof. by vm_compute. Qed.

(** Splitting the best message; a message with a single field has no
    second-to-last one. *)
Example split_best_msg :
  split tab demo_best_msg =
    ["[9]"; "train-error@0.5:0.1"; "train-auc:0.9"; "eval-error@0.5:0.12";
     "eval-auc:0.88"] ∧
  py_index (split tab demo_best_msg) (-2) = Ok "eval-error@0.5:0.12" ∧
  py_index (split tab "no tabs here") (-2) = Raise IndexError.
Proof. by vm_compute. Qed.

(** * Diagnostics *)

Lemma np_greater_above p : np_greater p (1 # 2) = true ↔ above_half p.
Proof.
  destruct p as [x| | |]; cbn; try done.
  rewrite negb_true_iff, <- not_true_iff_false, Qle_bool_iff. split.
  - apply Qnot_le_lt.
  - apply Qlt_not_le.
Qed.

Lemma bool_eq_float_correct p t :
  bool_eq_float (np_greater p (1 # 2)) t = true ↔ row_correct p t.
Proof.
  destruct t as [q| | |]; cbn; try done.
  pose proof (np_greater_above p) as Hp.
  destruct (np_greater p (1 # 2)); rewrite Qeq_bool_iff; split.
  - intros Hq. left. split; [by symmetry|]. by apply Hp.
  - intros [[Hq _]|[_ Hn]]; [by symmetry|]. destruct Hn. by apply Hp.
  - intros Hq. right. split; [by symmetry|]. intros Ha%Hp. done.
  - intros [[_ Ha%Hp]|[Hq _]]; [done|by symmetry].
Qed.

Lemma count_true_correct (preds labels : list pyfloat) :
  count_true (zip_with bool_eq_float ((λ p, np_greater p (1 # 2)) <$> preds) labels)
  = correct_rows preds labels.
Proof.
  unfold count_true, correct_rows. revert labels.
  induction preds as [|p preds IH]; intros [|t labels]; try done.
  cbn [fmap list_fmap zip_with zip]. rewrite !filter_cons. cbn [fst snd].
  pose proof (bool_eq_float_correct p t) as Hpt.
  destruct (bool_eq_float (np_greater p (1 # 2)) t).
  - rewrite decide_True by done. rewrite decide_True by (by apply Hpt).
    cbn. f_equal. apply IH.
  - rewrite decide_False by done.
    rewrite decide_False by (by intros ?%Hpt). apply IH.
Qed.

(** The thresholded comparison and its mean compute the accuracy. *)
Lemma np_mean_accuracy (preds labels : list pyfloat) :
  length preds = length labels → labels ≠ [] →
  ∃ hits, np_equal ((λ p, np_greater p (1 # 2)) <$> preds) labels = Ok hits ∧
          np_mean hits = accuracy preds labels.
Proof.
  intros Hlen Hne. eexists. unfold np_equal.
  rewrite decide_True by (by rewrite length_fmap). split; [done|].
  unfold np_mean, accuracy. rewrite count_true_correct.
  rewrite length_zip_with, length_fmap, Hlen, Nat.min_id.
  destruct preds as [|p preds], labels as [|t labels]; done.
Qed.

Lemma path_join_graphs b :
  path_join "graphs" [b] = if starts_with "/" b then b else "graphs/" +:+ b.
Proof. unfold path_join. cbn [foldl]. by destruct (starts_with "/" b). Qed.

Lemma image_paths_differ args : roc_path args ≠ importances_path args.
Proof.
  unfold roc_path, importances_path. rewrite !path_join_graphs.
  set (c := channel args). set (m := mode args).
  assert (∀ x y : string, x ≠ y → c +:+ m +:+ x ≠ c +:+ m +:+ y) as Hinj.
  { intros x y Hxy Heq. by do 2 apply String.app_inj in Heq. }
  assert (∀ x y, starts_with "/" x = true → x ≠ "graphs/" +:+ y) as Hmix.
  { intros x y Hx ->. done. }
  destruct (starts_with "/" (c +:+ m +:+ "ROC.pdf")) eqn:H1,
           (starts_with "/" (c +:+ m +:+ "xgb_importances.pdf")) eqn:H2.
  - by apply Hinj.
  - by apply Hmix.
  - intros Heq. symmetry in Heq. by apply Hmix in Heq.
  - intros Heq%String.app_inj. by apply (Hinj "ROC.pdf" "xgb_importances.pdf").
Qed.

(** What the diagnostics step does when every library call succeeds. *)
Lemma diagnostics_returns L args hp data y bst w d :
  length (predict bst data.2) = length y → y ≠ [] →
  heap w !! hp = Some d → has_eta_and_max_depth d →
  roc_curve_accepts L y (predict bst data.2) = true →
  barh_accepts L (get_fscore bst) = true →
  diagnostics L args hp data y bst w =
    (Ok (), {| heap := heap w;
               trace := trace w ++
                 [Printed "Test accuracy: {}" [VFloat (accuracy (predict bst data.2) y)];
                  FileWritten PdfImage (roc_path args);
                  FileWritten PdfImage (importances_path args);
                  Printed "Diagnostic graphs saved to graphs/" [];
                  FileWritten NpyArray (predictions_path args)] |}).
Proof.
  intros Hlen Hne Hhp [[eta He] [depth Hd]] Hroc Hbar.
  destruct (np_mean_accuracy _ _ Hlen Hne) as (hits & Hhits & Hacc).
  unfold diagnostics, plot_ROC_curve, plot_importances.
  rewrite Hhits, Hroc, Hbar.
  unfold mbind, M_bind, lift, emit, mret, M_ret, dict_getitem. cbn.
  rewrite Hhp. cbn. rewrite He. cbn. rewrite Hhp. cbn. rewrite Hd. cbn.
  rewrite Hacc, <- !app_assoc. done.
Qed.

Lemma getitem_ok_inv l k w v w' :
  dict_getitem l k w = (Ok v, w') →
  w' = w ∧ ∃ d, heap w !! l = Some d ∧ d !! k = Some v.
Proof.
  unfold dict_getitem. destruct (heap w !! l) as [d|]; [|done].
  intros [= Hv <-]. apply of_option_ok_inv in Hv. eauto.
Qed.

Lemma emit_inv e w r w' :
  emit e w = (r, w') →
  r = Ok () ∧ w' = {| heap := heap w; trace := trace w ++ [e] |}.
Proof. by intros [= <- <-]. Qed.

(** A diagnostics step that returns has found both keys and had both plots
    accepted. *)
Lemma diagnostics_ok_inv L args hp data y bst w w' :
  diagnostics L args hp data y bst w = (Ok (), w') →
  (∃ d, heap w !! hp = Some d ∧ has_eta_and_max_depth d) ∧
  roc_curve_accepts L y (predict bst data.2) = true ∧
  barh_accepts L (get_fscore bst) = true.
Proof.
  unfold diagnostics, plot_ROC_curve, plot_importances.
  intros [(hits & w1 & [_ ->]%lift_inv & H)|(? & _ & [=])]%bind_inv.
  apply bind_inv in H as [(? & w2 & [_ ->]%emit_inv & H)|(? & _ & [=])].
  apply bind_inv in H as [(eta & w3 & He & H)|(? & _ & [=])].
  apply getitem_ok_inv in He as (-> & d & Hd & He).
  apply bind_inv in H as [(depth & w4 & Hm & H)|(? & _ & [=])].
  apply getitem_ok_inv in Hm as (-> & d' & Hd' & Hm).
  cbn in Hd, Hd'. assert (d' = d) as -> by congruence.
  split; [exists d; repeat split; eauto|].
  apply bind_inv in H as [(? & w5 & Hroc & H)|(? & _ & [=])].
  apply bind_inv in H as [(? & w6 & Himp & _)|(? & _ & [=])].
  split.
  - destruct (roc_curve_accepts L y (predict bst data.2)); [done|].
    by apply bind_inv in Hroc as [(? & ? & [=] & _)|(? & _ & [=])].
  - destruct (barh_accepts L (get_fscore bst)); [done|].
    by apply bind_inv in Himp as [(? & ? & [=] & _)|(? & _ & [=])].
Qed.

(** C7. When the diagnostics step runs on one prediction per test row, the
    first thing it does is to report the accuracy, which is the fraction of
    test rows whose thresholded prediction equals the label; and when it
    returns, it has written exactly three files: the two images, under
    different names, and the prediction array. *)
Theorem diagnostics_reports_accuracy_and_files
    (L : Libs) (args : Args) (hp : loc) (data : dmatrix * dmatrix)
    (y : list pyfloat) (bst : booster) (w : world) (r : result ()) (w' : world) :
  length (predict bst data.2) = length y → y ≠ [] →
  diagnostics L args hp data y bst w = (r, w') →
  ∃ es,
    trace w' = trace w ++
      Printed "Test accuracy: {}" [VFloat (accuracy (predict bst data.2) y)] :: es ∧
    (∀ values, Printed "Test accuracy: {}" values ∉ es) ∧
    (r = Ok () →
     files_written es = [(PdfImage, roc_path args);
                         (PdfImage, importances_path args);
                         (NpyArray, predictions_path args)] ∧
     roc_path args ≠ importances_path args).
Proof.
  intros Hlen Hne Hrun.
  destruct (np_mean_accuracy _ _ Hlen Hne) as (hits & Hhits & Hacc).
  assert (∃ es, trace w' = trace w ++
            Printed "Test accuracy: {}" [VFloat (accuracy (predict bst data.2) y)] :: es ∧
            ∀ values, Printed "Test accuracy: {}" values ∉ es) as (es & Htrace & Hno).
  { revert Hrun. unfold diagnostics. rewrite Hhits.
    intros [(? & w1 & [[= ->] ->]%lift_inv & H)|(? & [=] & _)]%bind_inv.
    apply bind_inv in H as [(? & w2 & [_ ->]%emit_inv & H)|(? & [=] & _)].
    eassert (emits_only (λ e, ∀ values, e ≠ Printed "Test accuracy: {}" values) _)
      as Hrest; [|destruct (Hrest _ _ _ H) as (es & E & F)].
    { unfold plot_ROC_curve, plot_importances. emits_only; done. }
    exists es. cbn in E. rewrite E, Hacc, <- app_assoc. split; [done|].
    intros values Hin. rewrite Forall_forall in F. by apply (F _ Hin values). }
  exists es. split; [done|]. split; [done|]. intros ->. split; [|apply image_paths_differ].
  destruct (diagnostics_ok_inv _ _ _ _ _ _ _ _ Hrun) as ((d & Hd & Hk) & Hroc & Hbar).
  rewrite (diagnostics_returns _ _ _ _ _ _ _ d) in Hrun by done.
  injection Hrun as <-. cbn in Htrace.
  apply app_inv_head in Htrace. by injection Htrace as <-.
Qed.

Lemma diagnostics_reports_accuracy_and_files_witness :
  ∃ es,
    trace (diagnostics (demo_libs demo_table) (demo_args None false true) 0%nat
             (demo_train, demo_test) [Fin 1] demo_booster
             (world_with shallow_config)).2
    = trace (world_with shallow_config) ++
      Printed "Test accuracy: {}"
        [VFloat (accuracy (predict demo_booster demo_test) [Fin 1])] :: es ∧
    (∀ values, Printed "Test accuracy: {}" values ∉ es) ∧
    ((diagnostics (demo_libs demo_table) (demo_args None false true) 0%nat
        (demo_train, demo_test) [Fin 1] demo_booster
        (world_with shallow_config)).1 = Ok () →
     files_written es = [(PdfImage, roc_path (demo_args None false true));
                         (PdfImage, importances_path (demo_args None false true));
                         (NpyArray, predictions_path (demo_args None false true))] ∧
     roc_path (demo_args None false true) ≠ importances_path (demo_args None false true)).
Proof.
  apply (diagnostics_reports_accuracy_and_files (demo_libs demo_table)
           (demo_args None false true) 0%nat (demo_train, demo_test) [Fin 1]
           demo_booster (world_with shallow_config)).
  - reflexivity.
  - discriminate.
  - apply surjective_pairing.
Defined.

(** The demo run reports accuracy 1 and writes its three files. *)
Example diagnostics_demo :
  diagnostics (demo_libs demo_table) (demo_args None false true) 0%nat
    (demo_train, demo_test) [Fin 1] demo_booster (world_with shallow_config)
  = (Ok (), {| heap := {[ 0%nat := shallow_config ]};
               trace :=
                 [Printed "Test accuracy: {}" [VFloat (Fin 1)];
                  FileWritten PdfImage "graphs/kstarcontinuumROC.pdf";
                  FileWritten PdfImage "graphs/kstarcontinuumxgb_importances.pdf";
                  Printed "Diagnostic graphs saved to graphs/" [];
                  FileWritten NpyArray "test/kstar/yPred_continuum_kstar.npy"] |}).
Proof. by vm_compute. Qed.

(** * The data loader *)

Lemma mapM_result_Forall2 {A B} (f : A → result B) (l : list A) (k : list B) :
  mapM f l = Ok k → Forall2 (λ x y, f x = Ok y) l k.
Proof.
  revert k. induction l as [|x l IH]; intros k; cbn.
  - intros [= <-]. constructor.
  - intros (y & Hy & H)%rbind_ok_inv. apply rbind_ok_inv in H as (k' & Hk & H).
    injection H as <-. constructor; [done|]. by apply IH.
Qed.

Lemma take_rows_Forall2 ind col vs :
  take_rows ind col = Ok vs → Forall2 (λ i v, col !! i = Some v) ind vs.
Proof. intros H%of_option_ok_inv. by apply mapM_Some. Qed.

Lemma df_take_columns ind X X' :
  df_take ind X = Ok X' →
  df_len X' = length ind ∧
  Forall2 (λ c c', c'.1 = c.1 ∧ take_rows ind c.2 = Ok c'.2)
    (df_columns X) (df_columns X').
Proof.
  unfold df_take. intros (cols & Hcols & [= <-])%rbind_ok_inv. split; [done|].
  apply mapM_result_Forall2 in Hcols. cbn. eapply Forall2_impl; [done|].
  intros c c' (vs & Hvs & [= <-])%rbind_ok_inv. done.
Qed.

Lemma df_getitem_list_len names df X :
  df_getitem_list names df = Ok X → df_len X = df_len df.
Proof. unfold df_getitem_list. by intros (cols & _ & [= <-])%rbind_ok_inv. Qed.

(** What a successful load has gone through. *)
Lemma load_data_ok_inv L fname mode channel test_size w dTrain dTest y_test w' :
  load_data L fname mode channel test_size w = (Ok ((dTrain, dTest), y_test), w') →
  ∃ df X ys X_train X_test y_train,
    read_hdf L fname = Some df ∧
    df_getitem_list (all_but_last (df_names df)) df = Ok X ∧
    df_getitem "labels" df = Ok (Series ys) ∧
    (num_test L test_size (df_len df) ≤ df_len df)%nat ∧
    df_take (split_indices L (df_len df) test_size seed).1 X = Ok X_train ∧
    df_take (split_indices L (df_len df) test_size seed).2 X = Ok X_test ∧
    take_rows (split_indices L (df_len df) test_size seed).1 ys = Ok y_train ∧
    take_rows (split_indices L (df_len df) test_size seed).2 ys = Ok y_test ∧
    dTrain = {| dm_num_row := df_len X_train; dm_data := (df_columns X_train).*2;
                dm_label := y_train;
                dm_feature_names := all_but_last (df_names df) |} ∧
    dTest = {| dm_num_row := df_len X_test; dm_data := (df_columns X_test).*2;
               dm_label := y_test;
               dm_feature_names := all_but_last (df_names df) |}.
Proof.
  unfold load_data.
  intros [(df & w1 & [Hdf ->]%lift_inv & H)|(? & _ & [=])]%bind_inv.
  symmetry in Hdf. apply of_option_ok_inv in Hdf.
  apply bind_inv in H as [(X & w2 & [HX ->]%lift_inv & H)|(? & _ & [=])].
  apply bind_inv in H as [(y & w3 & [Hy ->]%lift_inv & H)|(? & _ & [=])].
  apply bind_inv in H as [(parts & w4 & [Hparts ->]%lift_inv & H)|(? & _ & [=])].
  symmetry in HX, Hy, Hparts.
  pose proof (df_getitem_list_len _ _ _ HX) as Hlen.
  destruct parts as [[[X_train X_test] [y_train|?]] [y_test'|?]]; try done.
  apply bind_inv in H as [(dTrain' & w5 & [HdTrain ->]%lift_inv & H)|(? & _ & [=])].
  apply bind_inv in H as [(dTest' & w6 & [HdTest ->]%lift_inv & H)|(? & _ & [=])].
  apply bind_inv in H as [(? & w7 & _ & H)|(? & _ & [=])].
  apply bind_inv in H as [(? & w8 & _ & H)|(? & _ & [=])].
  apply bind_inv in H as [(? & w9 & _ & H)|(? & _ & [=])].
  injection H as -> -> -> _.
  symmetry in HdTrain, HdTest. unfold DMatrix in HdTrain, HdTest.
  destruct (dmatrix_accepts L _ y_train _); [|done].
  destruct (dmatrix_accepts L _ y_test _); [|done].
  injection HdTrain as <-. injection HdTest as <-.
  unfold train_test_split in Hparts. rewrite Hlen in Hparts.
  case_decide as Hn; [done|].
  destruct (split_indices L (df_len df) test_size seed)
    as [ind_train ind_test] eqn:Hsplit. cbn [fst snd].
  apply rbind_ok_inv in Hparts as (X_tr & HXtr & Hparts).
  apply rbind_ok_inv in Hparts as (X_te & HXte & Hparts).
  apply rbind_ok_inv in Hparts as (y_tr & Hytr & Hparts).
  apply rbind_ok_inv in Hparts as (y_te & Hyte & Hparts).
  injection Hparts as -> -> -> ->.
  destruct y as [ys|cs]; cbn in Hytr, Hyte.
  - apply rbind_ok_inv in Hytr as (ytr & Hytr & [= ->]).
    apply rbind_ok_inv in Hyte as (yte & Hyte & [= ->]).
    exists df, X, ys, X_train, X_test, y_train. rewrite Hsplit.
    repeat split; try done. lia.
  - by apply rbind_ok_inv in Hytr as (? & _ & [=]).
Qed.

Lemma df_getitem_last df name ys ys' :
  last (df_columns df) = Some (name, ys) →
  df_getitem name df = Ok (Series ys') → ys' = ys.
Proof.
  intros [init Hcols]%last_Some. unfold df_getitem, columns_named.
  rewrite Hcols, filter_app, filter_cons, filter_nil. cbn [fst].
  rewrite decide_True by done.
  destruct (filter _ init) as [|a [|b t]]; cbn; [|done..]. by intros [= <-].
Qed.

(** C3, as stated, fails: in a table whose first column is named 'labels'
    the labels of the matrices are those of that column, not of the
    rightmost one. *)
Lemma labels_come_from_rightmost_fails :
  ¬ labels_come_from_rightmost (demo_libs labels_first_table)
      "data.h5" "continuum" "kstar" default_test_size.
Proof.
  intros H.
  destruct (load_data (demo_libs labels_first_table) "data.h5" "continuum" "kstar"
              default_test_size empty_world) as [r w'] eqn:Hrun.
  assert (∃ dTrain dTest y_test,
            r = Ok ((dTrain, dTest), y_test) ∧ dm_label dTrain = [Fin 1; Fin 1; Fin 0])
    as (dTrain & dTest & y_test & -> & Hlabel).
  { vm_compute in Hrun. injection Hrun as <- _. eauto. }
  destruct (H _ labels_first_table _ _ _ _ eq_refl Hrun) as (header & ys & Hlast & Htrain & _).
  injection Hlast as <- <-. rewrite Hlabel in Htrain. by vm_compute in Htrain.
Qed.

(** C3, amended.  For a table whose rightmost column is named 'labels', the
    labels used for the split and attached to the matrices are the values of
    that column at the rows of the split, and the feature names attached to
    both matrices are the headers of all columns but the last, in order. *)
Theorem load_data_labels_and_feature_names
    (L : Libs) (fname mode channel : string) (test_size : Q) (w : world)
    (df : dataframe) (ys : list pyfloat) (dTrain dTest : dmatrix)
    (y_test : list pyfloat) (w' : world) :
  read_hdf L fname = Some df →
  last (df_columns df) = Some ("labels", ys) →
  load_data L fname mode channel test_size w = (Ok ((dTrain, dTest), y_test), w') →
  take_rows (split_indices L (df_len df) test_size seed).1 ys = Ok (dm_label dTrain) ∧
  take_rows (split_indices L (df_len df) test_size seed).2 ys = Ok (dm_label dTest) ∧
  y_test = dm_label dTest ∧
  dm_feature_names dTrain = all_but_last (df_names df) ∧
  dm_feature_names dTest = all_but_last (df_names df).
Proof.
  intros Hdf Hlast Hrun.
  apply load_data_ok_inv in Hrun
    as (df' & X & ys' & X_train & X_test & y_train & Hdf' & _ & Hy & _ & _ & _
        & Htrain & Htest & -> & ->).
  assert (df' = df) as -> by congruence.
  assert (ys' = ys) as -> by (by eapply df_getitem_last).
  done.
Qed.

Lemma load_data_labels_and_feature_names_witness :
  take_rows (split_indices (demo_libs demo_table) 4 default_test_size seed).1
    [Fin 0; Fin 1; Fin 1; Fin 1] = Ok (dm_label demo_train) ∧
  take_rows (split_indices (demo_libs demo_table) 4 default_test_size seed).2
    [Fin 0; Fin 1; Fin 1; Fin 1] = Ok (dm_label demo_test) ∧
  [Fin 1] = dm_label demo_test ∧
  dm_feature_names demo_train = all_but_last (df_names demo_table) ∧
  dm_feature_names demo_test = all_but_last (df_names demo_table).
Proof.
  apply (load_data_labels_and_feature_names (demo_libs demo_table)
           "data.h5" "continuum" "kstar" default_test_size empty_world demo_table
           [Fin 0; Fin 1; Fin 1; Fin 1] demo_train demo_test [Fin 1]
           (load_data (demo_libs demo_table) "data.h5" "continuum" "kstar"
              default_test_size empty_world).2).
  - reflexivity.
  - reflexivity.
  - vm_compute. reflexivity.
Defined.

(** The feature names are the headers of all columns but the last for every
    table, also one that is not in the documented layout. *)
Example load_data_labels_first :
  ∃ dTrain dTest y_test w',
    load_data (demo_libs labels_first_table) "data.h5" "continuum" "kstar"
      default_test_size empty_world = (Ok ((dTrain, dTest), y_test), w') ∧
    dm_feature_names dTrain = ["labels"; "x1"] ∧
    dm_label dTrain = [Fin 1; Fin 1; Fin 0] ∧
    dm_data dTrain = [[Fin 1; Fin 1; Fin 0]; [Fin (2 # 10); Fin (9 # 10); Fin (1 # 10)]].
Proof. do 4 eexists. split; [by vm_compute|]. done. Qed.

(** ** The split *)

Lemma bind_ext {A B} (m : M A) (k1 k2 : A → M B) w :
  (∀ a w1, k1 a w1 = k2 a w1) → (m ≫= k1) w = (m ≫= k2) w.
Proof. intros Hk. unfold mbind, M_bind. by destruct (m w) as [[a|e] w1]. Qed.

Lemma train_test_split_same L1 L2 fname X y test_size :
  same_for_loader L1 L2 fname test_size →
  train_test_split L1 X y test_size seed = train_test_split L2 X y test_size seed.
Proof.
  intros (_ & Hperm & Hnum & _). unfold train_test_split, split_indices, seed.
  by rewrite Hnum, Hperm.
Qed.

Lemma DMatrix_same L1 L2 fname test_size data label names :
  same_for_loader L1 L2 fname test_size →
  DMatrix L1 data label names = DMatrix L2 data label names.
Proof. intros (_ & _ & _ & Hacc). unfold DMatrix. by rewrite Hacc. Qed.

Lemma load_data_same L1 L2 fname mode channel test_size w :
  same_for_loader L1 L2 fname test_size →
  load_data L1 fname mode channel test_size w
  = load_data L2 fname mode channel test_size w.
Proof.
  intros Hsame. unfold load_data. rewrite (proj1 Hsame).
  apply bind_ext. intros df w1. apply bind_ext. intros X w2.
  apply bind_ext. intros y w3.
  rewrite (train_test_split_same L1 L2 fname) by done.
  apply bind_ext. intros [[[X_train X_test] [y_train|?]] [y_test|?]] w4; try done.
  by rewrite !(DMatrix_same L1 L2 fname test_size).
Qed.

(** The two index lists of a split are a rearrangement of all row numbers. *)
Lemma split_indices_partition L n test_size random_state :
  permutation_ok L → (num_test L test_size n ≤ n)%nat →
  (split_indices L n test_size random_state).1 ++
  (split_indices L n test_size random_state).2 ≡ₚ seq 0 n.
Proof.
  intros Hperm Hle. unfold split_indices. cbn [fst snd].
  set (p := permutation L random_state n). set (k := num_test L test_size n).
  assert (length p = n) as Hp.
  { unfold p. rewrite (Permutation_length (Hperm random_state n)). apply length_seq. }
  rewrite take_ge by (rewrite length_drop; lia).
  rewrite (comm (++)), take_drop. apply Hperm.
Qed.

Lemma split_indices_lengths L n test_size random_state :
  permutation_ok L → (num_test L test_size n ≤ n)%nat →
  length (split_indices L n test_size random_state).2 = num_test L test_size n ∧
  length (split_indices L n test_size random_state).1 = (n - num_test L test_size n)%nat.
Proof.
  intros Hperm Hle. unfold split_indices. cbn [fst snd].
  assert (length (permutation L random_state n) = n) as Hp.
  { rewrite (Permutation_length (Hperm random_state n)). apply length_seq. }
  rewrite !length_take, length_drop. lia.
Qed.

(** C5. Two runs whose libraries answer alike on the file, on the
    permutation for seed 24601 and on the size of the test part load the
    same split, whatever else differs between them; and in every run the
    row numbers of the train and test parts are disjoint and together are
    all row numbers of the table, each part holding the table's rows and
    labels at its row numbers. *)
Theorem load_data_split_is_deterministic_partition
    (L L2 : Libs) (fname mode channel : string) (test_size : Q) (w : world) :
  permutation_ok L →
  same_for_loader L L2 fname test_size →
  load_data L fname mode channel test_size w
  = load_data L2 fname mode channel test_size w ∧
  ∀ dTrain dTest y_test w',
    load_data L fname mode channel test_size w = (Ok ((dTrain, dTest), y_test), w') →
    ∃ df X ys ind_train ind_test,
      read_hdf L fname = Some df ∧
      df_getitem_list (all_but_last (df_names df)) df = Ok X ∧
      df_getitem "labels" df = Ok (Series ys) ∧
      (ind_train, ind_test) = split_indices L (df_len df) test_size 24601 ∧
      ind_train ++ ind_test ≡ₚ seq 0 (df_len df) ∧
      (∀ i, i ∈ ind_train → i ∉ ind_test) ∧
      (∀ i, (i < df_len df)%nat ↔ i ∈ ind_train ∨ i ∈ ind_test) ∧
      dm_num_row dTrain = length ind_train ∧
      dm_num_row dTest = length ind_test ∧
      Forall2 (λ c vs, take_rows ind_train c.2 = Ok vs) (df_columns X) (dm_data dTrain) ∧
      Forall2 (λ c vs, take_rows ind_test c.2 = Ok vs) (df_columns X) (dm_data dTest) ∧
      take_rows ind_train ys = Ok (dm_label dTrain) ∧
      take_rows ind_test ys = Ok (dm_label dTest).
Proof.
  intros Hperm Hsame. split; [by apply load_data_same|].
  intros dTrain dTest y_test w' Hrun.
  apply load_data_ok_inv in Hrun
    as (df & X & ys & X_train & X_test & y_train & Hdf & HX & Hy & Hle
        & HXtr & HXte & Hytr & Hyte & -> & ->).
  pose proof (split_indices_partition L (df_len df) test_size seed Hperm Hle) as Hpart.
  destruct (split_indices L (df_len df) test_size seed) as [ind_train ind_test] eqn:Hsplit.
  cbn [fst snd] in *.
  apply df_take_columns in HXtr as [Hntr Hctr].
  apply df_take_columns in HXte as [Hnte Hcte].
  assert (NoDup (ind_train ++ ind_test)) as [_ [Hdisj _]]%NoDup_app.
  { rewrite Hpart. apply NoDup_seq. }
  exists df, X, ys, ind_train, ind_test. cbn [dm_num_row dm_data dm_label].
  repeat split; try done.
  - intros Hi. apply elem_of_app. rewrite Hpart. apply elem_of_seq. lia.
  - intros Hi%elem_of_app. rewrite Hpart in Hi. apply elem_of_seq in Hi. lia.
  - apply Forall2_fmap_r. eapply Forall2_impl; [done|]. by intros c c' [_ ?].
  - apply Forall2_fmap_r. eapply Forall2_impl; [done|]. by intros c c' [_ ?].
Qed.

Lemma load_data_split_is_deterministic_partition_witness :
  load_data (demo_libs demo_table) "data.h5" "continuum" "kstar"
    default_test_size empty_world
  = load_data (other_libs demo_table) "data.h5" "continuum" "kstar"
      default_test_size empty_world ∧
  ∀ dTrain dTest y_test w',
    load_data (demo_libs demo_table) "data.h5" "continuum" "kstar"
      default_test_size empty_world = (Ok ((dTrain, dTest), y_test), w') →
    ∃ df X ys ind_train ind_test,
      read_hdf (demo_libs demo_table) "data.h5" = Some df ∧
      df_getitem_list (all_but_last (df_names df)) df = Ok X ∧
      df_getitem "labels" df = Ok (Series ys) ∧
      (ind_train, ind_test)
        = split_indices (demo_libs demo_table) (df_len df) default_test_size 24601 ∧
      ind_train ++ ind_test ≡ₚ seq 0 (df_len df) ∧
      (∀ i, i ∈ ind_train → i ∉ ind_test) ∧
      (∀ i, (i < df_len df)%nat ↔ i ∈ ind_train ∨ i ∈ ind_test) ∧
      dm_num_row dTrain = length ind_train ∧
      dm_num_row dTest = length ind_test ∧
      Forall2 (λ c vs, take_rows ind_train c.2 = Ok vs) (df_columns X) (dm_data dTrain) ∧
      Forall2 (λ c vs, take_rows ind_test c.2 = Ok vs) (df_columns X) (dm_data dTest) ∧
      take_rows ind_train ys = Ok (dm_label dTrain) ∧
      take_rows ind_test ys = Ok (dm_label dTest).
Proof.
  apply (load_data_split_is_deterministic_partition (demo_libs demo_table)
           (other_libs demo_table) "data.h5" "continuum" "kstar"
           default_test_size empty_world).
  - intros s n. apply reverse_Permutation.
  - repeat split; reflexivity.
Defined.

(** The split of the four-row table: rows 2, 1, 0 train, row 3 tests. *)
Example split_indices_demo :
  split_indices (demo_libs demo_table) 4 default_test_size seed
  = ([2; 1; 0]%nat, [3%nat]).
Proof. by vm_compute. Qed.
